(** * Auto_TS: the SARIMAX model builder ([auto_ts/models/ar_based/sarimax.py])

    A shallow embedding of [BuildSarimax.fit] and [BuildSarimax.predict].

    The two methods are sequencing code around collaborators that live
    outside the file: the order search [find_best_pdq_or_PDQ], the
    statsmodels estimator [SARIMAX], pandas, matplotlib and the two RMSE
    helpers of [auto_ts.utils].  They are taken as an environment [Env] of
    functions that either return a value or raise; the methods themselves
    run in a small monad that threads the object state ([self] and the
    caller's data frame), records every collaborator call in a trace and
    propagates Python exceptions.

    In that reading a collaborator is a function of its arguments.  A
    second reading, [InPlace], lets every collaborator call write into the
    caller's frame through the slices [fit] hands out; with collaborators
    that only read, it is the first reading. *)

From Stdlib Require Import ZArith List String Bool Lia Floats Uint63.
Import ListNotations.

Open Scope string_scope.
Open Scope list_scope.
Open Scope Z_scope.

(** ** Python values *)

Module Py.

(** Exceptions.  [IndexError], [AttributeError] and [TypeError] are the
    ones the interpreter raises in the code of the two methods; [PyExc]
    stands for any exception class raised inside a collaborator. *)
Inductive exn : Type :=
| IndexError
| AttributeError
| TypeError
| PyExc (name : string).

Inductive result (A : Type) : Type :=
| Ok (a : A)
| Raise (e : exn).
Arguments Ok {A} a.
Arguments Raise {A} e.

Definition len {A : Type} (l : list A) : Z := Z.of_nat (List.length l).

(** A bound of a slice: a negative bound counts from the end, and every
    bound is clamped to [0 .. len]. *)
Definition bound (n i : Z) : Z :=
  if i <? 0 then Z.max 0 (i + n) else Z.min i n.

(** [l[:stop]] *)
Definition slice_to {A : Type} (l : list A) (stop : Z) : list A :=
  firstn (Z.to_nat (bound (len l) stop)) l.

(** [l[start:]] *)
Definition slice_from {A : Type} (l : list A) (start : Z) : list A :=
  skipn (Z.to_nat (bound (len l) start)) l.

(** [l[i]]: a negative index counts from the end; out of range raises. *)
Definition index {A : Type} (l : list A) (i : Z) : result A :=
  let j := if i <? 0 then i + len l else i in
  if (j <? 0) || (len l <=? j) then Raise IndexError
  else match nth_error l (Z.to_nat j) with
       | Some a => Ok a
       | None => Raise IndexError
       end.

End Py.
Import Py.

(** ** Data *)

Definition timestamp : Type := Z.

(** A univariate series: the rows of the data frame, in index order. *)
Definition Series : Type := list (timestamp * float).

Definition index_of (s : Series) : list timestamp := map fst s.

(** The keyword arguments of a [SARIMAX(...)] construction.
    [seasonal_order] is [None] when the keyword is not passed. *)
Record SarimaxArgs : Type := mkSarimaxArgs {
  endog : Series;
  order : Z * Z * Z;
  seasonal_order : option (Z * Z * Z * option Z);
  enforce_stationarity : bool;
  enforce_invertibility : bool;
  trend : string;
  start_params : list Z;
  simple_differencing : bool
}.

(** The rows of [pd.concat([y_truth, y_forecasted], axis=1,
    keys=['original', 'predicted'])]. *)
Definition Concatenated : Type := list (timestamp * (float * float)).

Definition col_original (c : Concatenated) : list float :=
  map (fun r => fst (snd r)) c.
Definition col_predicted (c : Concatenated) : list float :=
  map (fun r => snd (snd r)) c.

(** The operands of a [%]-formatted message. *)
Inductive fmtarg : Type :=
| FInt (z : Z)
| FFloat (f : float)
| FStr (s : string)
| FShape (rows : nat).

(** ** The collaborators

    Everything [fit] and [predict] call outside their own file.  The objects
    these calls hand back (model handles, result objects, axes) are opaque to
    the two methods, so their types are fields of the environment.  Each
    collaborator returns a value or raises. *)

Record Env : Type := mkEnv {
  Model : Type;        (* an unfitted [SARIMAX] object *)
  Results : Type;      (* what [bestmodel.fit()] returns *)
  ForecastRes : Type;  (* what [get_forecast] returns *)
  Frame : Type;        (* what [summary_frame()] returns *)
  Prediction : Type;   (* what [get_prediction] returns *)
  ConfInt : Type;      (* what [conf_int()] returns *)
  Axes : Type;         (* a matplotlib axes object *)

  (* utils.colorful *)
  BOLD : string;
  END : string;

  (* models.ar_based.param_finder: ts, metric, p_max, d_max, q_max,
     non_seasonal_pdq, seasonal_period, seasonality, verbose *)
  find_best_pdq_or_PDQ :
    Series -> string -> Z -> Z -> Z -> option (Z * Z * Z) -> option Z ->
    bool -> Z -> result (Z * Z * Z * float * bool);

  (* statsmodels *)
  SARIMAX : SarimaxArgs -> result Model;
  model_fit : Model -> result Results;                 (* bestmodel.fit() *)
  results_attr : Results -> string -> result float;    (* eval('self.model.' + metric) *)
  plot_diagnostics : Results -> result unit;
  results_predict : Results -> result Series;          (* predict(dynamic=False) *)
  get_prediction : Results -> timestamp -> result Prediction;
  conf_int : Prediction -> result ConfInt;
  get_forecast : Results -> Z -> result ForecastRes;
  summary_frame : ForecastRes -> result Frame;
  forecast : Results -> Z -> result Series;            (* the multi-step forecast *)
  summary : Results -> result string;

  (* pandas and matplotlib *)
  pd_concat : Series -> Series -> result Concatenated;
  frame_plot : Concatenated -> result Axes;
  plot_predicted_mean : Prediction -> Axes -> result unit;
  fill_between : Axes -> ConfInt -> result unit;
  get_ylim : Axes -> result (float * float);
  fill_betweenx : Axes -> float * float -> timestamp -> timestamp -> result unit;
  set_xlabel : Axes -> string -> result unit;
  set_ylabel : Axes -> string -> result unit;
  plt_legend : result unit;
  plt_show : result unit;

  (* utils *)
  print_static_rmse : list float -> list float -> Z -> result unit;
  print_dynamic_rmse : Series -> Series -> Series -> result (float * float)
}.

Section BuildSarimax.

Variable E : Env.

(** ** The object and the heap *)

(** The attributes of a [BuildSarimax] instance. *)
Record BuildSarimax : Type := mkBuildSarimax {
  metric : string;
  seasonality : bool;
  seasonal_period : option Z;
  p_max : Z;
  d_max : Z;
  q_max : Z;
  forecast_period : Z;
  verbose : Z;
  model : option (Results E)
}.

(** [__init__], with its defaults left to the caller. *)
Definition init (metric : string) (seasonality : bool)
    (seasonal_period : option Z) (p_max d_max q_max forecast_period verbose : Z)
    : BuildSarimax :=
  mkBuildSarimax metric seasonality seasonal_period p_max d_max q_max
                 forecast_period verbose None.

(** What a run can reach: the instance and the data frame the caller
    passes to [fit]. *)
Record Heap : Type := mkHeap {
  this : BuildSarimax;
  ts_df : Series
}.

(** [self.model = m] *)
Definition with_model (m : Results E) (h : Heap) : Heap :=
  let s := this h in
  mkHeap (mkBuildSarimax (metric s) (seasonality s) (seasonal_period s)
                         (p_max s) (d_max s) (q_max s) (forecast_period s)
                         (verbose s) (Some m))
         (ts_df h).

(** ** The trace: one event per output line and per collaborator call *)

Inductive event : Type :=
| EvPrint (template : string) (args : list fmtarg)
| EvSearch (ts : Series) (metric : string) (p_max d_max q_max : Z)
           (non_seasonal_pdq : option (Z * Z * Z)) (seasonal_period : option Z)
           (seasonality : bool) (verbose : Z)
| EvSARIMAX (a : SarimaxArgs)
| EvFit (bestmodel : Model E)
| EvAttr (m : Results E) (name : string)
| EvPlotDiagnostics (m : Results E)
| EvPredict (m : Results E)
| EvConcat (y_truth y_forecasted : Series)
| EvStaticRmse (original predicted : list float) (verbose : Z)
| EvFramePlot (rows : Concatenated)
| EvGetPrediction (m : Results E) (start : timestamp)
| EvConfInt (p : Prediction E)
| EvPlotMean (p : Prediction E) (ax : Axes E)
| EvFillBetween (ax : Axes E) (ci : ConfInt E)
| EvGetYlim (ax : Axes E)
| EvFillBetweenx (ax : Axes E) (ylim : float * float) (x1 x2 : timestamp)
| EvSetXlabel (ax : Axes E) (label : string)
| EvSetYlabel (ax : Axes E) (label : string)
| EvLegend
| EvShow
| EvGetForecast (m : Results E) (steps : Z)
| EvSummaryFrame (r : ForecastRes E)
| EvForecast (m : Results E) (steps : Z)
| EvSummary (m : Results E)
| EvDynamicRmse (ts_test y_forecasted ts_train : Series).

(** ** The monad: trace, heap and exceptions *)

Definition M (A : Type) : Type := Heap -> list event * Heap * result A.

Definition ret {A : Type} (a : A) : M A := fun h => ([], h, Ok a).

Definition bind {A B : Type} (m : M A) (k : A -> M B) : M B :=
  fun h =>
    match m h with
    | (l1, h1, Ok a) =>
        match k a h1 with
        | (l2, h2, r) => (l1 ++ l2, h2, r)
        end
    | (l1, h1, Raise e) => (l1, h1, Raise e)
    end.

(** [try: m except: handler] with a bare [except]: every exception is
    caught; what [m] did to the heap and the trace before raising stays. *)
Definition try_except {A : Type} (m : M A) (handler : M A) : M A :=
  fun h =>
    match m h with
    | (l1, h1, Ok a) => (l1, h1, Ok a)
    | (l1, h1, Raise _) =>
        match handler h1 with
        | (l2, h2, r) => (l1 ++ l2, h2, r)
        end
    end.

(** An operation of the interpreter itself, not traced. *)
Definition lift {A : Type} (r : result A) : M A := fun h => ([], h, r).

(** A collaborator call: traced, then its outcome. *)
Definition call {A : Type} (ev : event) (r : result A) : M A :=
  fun h => ([ev], h, r).

Definition print (template : string) (args : list fmtarg) : M unit :=
  call (EvPrint template args) (Ok tt).

Definition get_self : M BuildSarimax := fun h => ([], h, Ok (this h)).
Definition get_ts_df : M Series := fun h => ([], h, Ok (ts_df h)).
Definition set_model (m : Results E) : M unit :=
  fun h => ([], with_model m h, Ok tt).

(** [self.model.<attribute>]: the attribute lookup fails on [None]. *)
Definition self_model : M (Results E) :=
  fun h => ([], h, match model (this h) with
                   | Some m => Ok m
                   | None => Raise AttributeError
                   end).

Definition when (b : bool) (m : M unit) : M unit := if b then m else ret tt.

(** ['%d' % x]: a number is required. *)
Definition fmt_d (x : option Z) : result fmtarg :=
  match x with
  | Some z => Ok (FInt z)
  | None => Raise TypeError
  end.

Definition events {A : Type} (x : list event * Heap * result A) : list event :=
  fst (fst x).
Definition heap {A : Type} (x : list event * Heap * result A) : Heap :=
  snd (fst x).
Definition outcome {A : Type} (x : list event * Heap * result A) : result A :=
  snd x.

Declare Scope py_scope.
Delimit Scope py_scope with py.
Notation "x <- c1 ;; c2" := (bind c1 (fun x => c2))
  (at level 61, c1 at next level, right associativity) : py_scope.
Notation "' pat <- c1 ;; c2" := (bind c1 (fun x => match x with pat => c2 end))
  (at level 61, pat pattern, c1 at next level, right associativity) : py_scope.
Notation "e1 ;; e2" := (bind e1 (fun _ => e2))
  (at level 61, right associativity) : py_scope.
Open Scope py_scope.

(** ** [BuildSarimax.predict] (lines 170-181) *)

Definition predict (forecast_period' : option Z) : M Series :=
  self <- get_self ;;
  match forecast_period' with
  | None =>
      (* use the forecast period used during training *)
      m <- self_model ;;
      call (EvForecast m (forecast_period self)) (forecast E m (forecast_period self))
  | Some n =>
      (* use the forecast period provided by the user *)
      m <- self_model ;;
      call (EvForecast m n) (forecast E m n)
  end.

(** ** [BuildSarimax.fit] (lines 30-168) *)

(** Lines 116-119: the diagnostic plots, a failure of which is reported
    and dropped. *)
Definition show_diagnostics : M unit :=
  try_except
    (m <- self_model ;;
     call (EvPlotDiagnostics m) (plot_diagnostics E m))
    (print "Error: SARIMAX plot diagnostic. Continuing..." []).

(** Lines 144-158: the plot of the static and the dynamic forecast. *)
Definition plot_dynamic_forecast (self : BuildSarimax) (ts_df ts_train : Series)
    (concatenated : Concatenated) (best_d : Z) : M unit :=
  let rows := slice_from concatenated best_d in
  ax <- call (EvFramePlot rows) (frame_plot E rows) ;;
  startdate <- lift (index (index_of ts_df) (- forecast_period self - 1)) ;;
  m <- self_model ;;
  pred_dynamic <- call (EvGetPrediction m startdate) (get_prediction E m startdate) ;;
  pred_dynamic_ci <- call (EvConfInt pred_dynamic) (conf_int E pred_dynamic) ;;
  call (EvPlotMean pred_dynamic ax) (plot_predicted_mean E pred_dynamic ax) ;;
  try_except
    (call (EvFillBetween ax pred_dynamic_ci) (fill_between E ax pred_dynamic_ci) ;;
     ylim <- call (EvGetYlim ax) (get_ylim E ax) ;;
     last <- lift (index (index_of ts_train) (-1)) ;;
     call (EvFillBetweenx ax ylim startdate last)
          (fill_betweenx E ax ylim startdate last))
    (ret tt) ;;
  call (EvSetXlabel ax "Date") (set_xlabel E ax "Date") ;;
  call (EvSetYlabel ax "Levels") (set_ylabel E ax "Levels") ;;
  call EvLegend (plt_legend E) ;;
  call EvShow (plt_show E).

(** The first component of what [fit] returns: [bestmodel] on the failure
    path, [self.model] otherwise. *)
Inductive handle : Type :=
| Unfitted (bestmodel : Model E)
| Fitted (m : Results E).

Definition FitResult : Type := handle * option (Frame E) * float * float.

Definition fit : M FitResult :=
  self <- get_self ;;
  ts_df <- get_ts_df ;;
  (* lines 35-39 *)
  let ts_train := slice_to ts_df (- forecast_period self) in
  let ts_test := slice_from ts_df (- forecast_period self) in
  when (verbose self =? 1)
    (print "Data Set split into train %s and test %s for Cross Validation Purposes"
           [FShape (List.length ts_train); FShape (List.length ts_test)]) ;;
  (* lines 41-105; of the names bound there, [best_d] and [bestmodel] are
     the ones read further down *)
  ' (best_d, bestmodel) <-
    (if negb (seasonality self) then
       print "Building a Non Seasonal Model..." [] ;;
       print "\nFinding best Non Seasonal Parameters:" [] ;;
       ' (best_p, best_d, best_q, best_bic, seasonality') <-
         call (EvSearch ts_train (metric self) (p_max self) (d_max self) (q_max self)
                        None None false (verbose self))
              (find_best_pdq_or_PDQ E ts_train (metric self) (p_max self) (d_max self)
                                    (q_max self) None None false (verbose self)) ;;
       print "\nBest model is: Non Seasonal SARIMAX(%d,%d,%d), %s = %0.3f"
             [FInt best_p; FInt best_d; FInt best_q; FStr (metric self); FFloat best_bic] ;;
       let a := {| endog := ts_train;
                   order := (best_p, best_d, best_q);
                   seasonal_order := None;
                   enforce_stationarity := false;
                   enforce_invertibility := false;
                   trend := "ct";
                   start_params := [0; 0; 0; 1];
                   simple_differencing := false |} in
       bestmodel <- call (EvSARIMAX a) (SARIMAX E a) ;;
       ret (best_d, bestmodel)
     else
       print (BOLD E ++ "Building a Seasonal Model..." ++ END E) [] ;;
       print (BOLD E ++ "\n    Finding best Non-Seasonal pdq Parameters:" ++ END E) [] ;;
       ' (best_p, best_d, best_q, best_bic, seasonality') <-
         call (EvSearch ts_train (metric self) (p_max self) (d_max self) (q_max self)
                        None None false (verbose self))
              (find_best_pdq_or_PDQ E ts_train (metric self) (p_max self) (d_max self)
                                    (q_max self) None None false (verbose self)) ;;
       print (BOLD E ++ "\n    Finding best Seasonal PDQ Model Parameters:" ++ END E) [] ;;
       ' (best_P, best_D, best_Q, best_bic, seasonality') <-
         call (EvSearch ts_train (metric self) (p_max self) (d_max self) (q_max self)
                        (Some (best_p, best_d, best_q)) (seasonal_period self) true
                        (verbose self))
              (find_best_pdq_or_PDQ E ts_train (metric self) (p_max self) (d_max self)
                                    (q_max self) (Some (best_p, best_d, best_q))
                                    (seasonal_period self) true (verbose self)) ;;
       if seasonality' then
         s <- lift (fmt_d (seasonal_period self)) ;;
         print "\nBest model is a Seasonal SARIMAX(%d,%d,%d)*(%d,%d,%d,%d), %s = %0.3f"
               [FInt best_p; FInt best_d; FInt best_q; FInt best_P; FInt best_D;
                FInt best_Q; s; FStr (metric self); FFloat best_bic] ;;
         let a := {| endog := ts_train;
                     order := (best_p, best_d, best_q);
                     seasonal_order :=
                       Some (best_P, best_D, best_Q, seasonal_period self);
                     enforce_stationarity := false;
                     enforce_invertibility := false;
                     trend := "ct";
                     start_params := [0; 0; 0; 1];
                     simple_differencing := false |} in
         bestmodel <- call (EvSARIMAX a) (SARIMAX E a) ;;
         ret (best_d, bestmodel)
       else
         print "\nBest model is a Non Seasonal SARIMAX(%d,%d,%d)"
               [FInt best_p; FInt best_d; FInt best_q] ;;
         let a := {| endog := ts_train;
                     order := (best_p, best_d, best_q);
                     seasonal_order := None;
                     enforce_stationarity := false;
                     enforce_invertibility := false;
                     trend := "ct";
                     start_params := [0; 0; 0; 1];
                     simple_differencing := false |} in
         bestmodel <- call (EvSARIMAX a) (SARIMAX E a) ;;
         ret (best_d, bestmodel)) ;;
  (* lines 107-113: the handler returns from [fit] *)
  print (BOLD E ++ "Fitting best SARIMAX model for full data set" ++ END E) [] ;;
  returned <-
    try_except
      (m <- call (EvFit bestmodel) (model_fit E bestmodel) ;;
       set_model m ;;
       m <- self_model ;;
       v <- call (EvAttr m (metric self)) (results_attr E m (metric self)) ;;
       print "    Best %s metric = %0.1f" [FStr (metric self); FFloat v] ;;
       ret None)
      (print "Error: Getting Singular Matrix. Please try using other PDQ parameters or turn off Seasonality" [] ;;
       ret (Some (Unfitted bestmodel, None, infinity, infinity))) ;;
  match returned with
  | Some sentinel => ret sentinel
  | None =>
      (* lines 115-119 *)
      when (verbose self =? 1) show_diagnostics ;;
      (* lines 122-124 *)
      let y_truth := ts_train in
      m <- self_model ;;
      y_forecasted <- call (EvPredict m) (results_predict E m) ;;
      concatenated <- call (EvConcat y_truth y_forecasted)
                           (pd_concat E y_truth y_forecasted) ;;
      (* lines 127-133 *)
      when (verbose self =? 1)
        (print "Static Forecasts:" [] ;;
         let original := slice_from (col_original concatenated) best_d in
         let predicted := slice_from (col_predicted concatenated) best_d in
         call (EvStaticRmse original predicted (verbose self))
              (print_static_rmse E original predicted (verbose self))) ;;
      (* lines 143-158 *)
      when (verbose self =? 1)
        (plot_dynamic_forecast self ts_df ts_train concatenated best_d) ;;
      (* lines 161-168 *)
      m <- self_model ;;
      res2 <- call (EvGetForecast m (forecast_period self))
                   (get_forecast E m (forecast_period self)) ;;
      res2_df <- call (EvSummaryFrame res2) (summary_frame E res2) ;;
      y_forecasted <- predict None ;;
      when (verbose self =? 1)
        (m <- self_model ;;
         text <- call (EvSummary m) (summary E m) ;;
         print "%s" [FStr text]) ;;
      print "Dynamic %d-Period Forecast:" [FInt (forecast_period self)] ;;
      ' (rmse, norm_rmse) <-
        call (EvDynamicRmse ts_test y_forecasted ts_train)
             (print_dynamic_rmse E ts_test y_forecasted ts_train) ;;
      m <- self_model ;;
      ret (Fitted m, Some res2_df, rmse, norm_rmse)
  end.

End BuildSarimax.

Arguments metric {E} b.
Arguments seasonality {E} b.
Arguments seasonal_period {E} b.
Arguments p_max {E} b.
Arguments d_max {E} b.
Arguments q_max {E} b.
Arguments forecast_period {E} b.
Arguments verbose {E} b.
Arguments model {E} b.
Arguments this {E} h.
Arguments ts_df {E} h.
Arguments mkBuildSarimax {E}.
Arguments mkHeap {E}.
Arguments with_model {E} m h.
Arguments bind {E A B} m k h.
Arguments try_except {E A} m handler h.
Arguments call {E A} ev r h.
Arguments set_model {E} m h.
Arguments Unfitted {E} bestmodel.
Arguments Fitted {E} m.
Arguments events {E A} x.
Arguments heap {E A} x.
Arguments outcome {E A} x.

Arguments EvPrint {E}.
Arguments EvSearch {E}.
Arguments EvSARIMAX {E}.
Arguments EvFit {E}.
Arguments EvAttr {E}.
Arguments EvPlotDiagnostics {E}.
Arguments EvPredict {E}.
Arguments EvConcat {E}.
Arguments EvStaticRmse {E}.
Arguments EvFramePlot {E}.
Arguments EvGetPrediction {E}.
Arguments EvConfInt {E}.
Arguments EvPlotMean {E}.
Arguments EvFillBetween {E}.
Arguments EvGetYlim {E}.
Arguments EvFillBetweenx {E}.
Arguments EvSetXlabel {E}.
Arguments EvSetYlabel {E}.
Arguments EvLegend {E}.
Arguments EvShow {E}.
Arguments EvGetForecast {E}.
Arguments EvSummaryFrame {E}.
Arguments EvForecast {E}.
Arguments EvSummary {E}.
Arguments EvDynamicRmse {E}.

(** ** Reading a trace *)

Section Traces.

Variable E : Env.

(** The calls that search, estimate, forecast or score; the output lines
    and the plotting calls are the rest. *)
Definition is_numerical (e : event E) : bool :=
  match e with
  | EvSearch _ _ _ _ _ _ _ _ _ | EvSARIMAX _ | EvFit _ | EvAttr _ _
  | EvPredict _ | EvConcat _ _ | EvStaticRmse _ _ _
  | EvGetForecast _ _ | EvSummaryFrame _ | EvForecast _ _
  | EvDynamicRmse _ _ _ => true
  | _ => false
  end.

Definition numerical (l : list (event E)) : list (event E) :=
  filter is_numerical l.

(** The calls that choose the order and estimate the model. *)
Definition is_selection (e : event E) : bool :=
  match e with
  | EvSearch _ _ _ _ _ _ _ _ _ | EvSARIMAX _ | EvFit _ => true
  | _ => false
  end.

Definition is_search (e : event E) : bool :=
  match e with EvSearch _ _ _ _ _ _ _ _ _ => true | _ => false end.

(** The order searches of a trace, in order. *)
Definition searches (l : list (event E)) : list (event E) :=
  filter is_search l.

(** The arguments of the [SARIMAX(...)] constructions of a trace. *)
Definition constructions (l : list (event E)) : list SarimaxArgs :=
  flat_map (fun e => match e with EvSARIMAX a => [a] | _ => [] end) l.

(** The handles on which [.fit()] was called. *)
Definition fits (l : list (event E)) : list (Model E) :=
  flat_map (fun e => match e with EvFit bm => [bm] | _ => [] end) l.

(** The results on which [predict(dynamic=False)] was called. *)
Definition static_predictions (l : list (event E)) : list (Results E) :=
  flat_map (fun e => match e with EvPredict m => [m] | _ => [] end) l.

(** The operands of the [print_static_rmse] calls. *)
Definition static_rmse_calls (l : list (event E)) : list (list float * list float) :=
  flat_map (fun e => match e with EvStaticRmse o p _ => [(o, p)] | _ => [] end) l.

(** The operands of the [print_dynamic_rmse] calls. *)
Definition dynamic_rmse_calls (l : list (event E)) : list (Series * Series * Series) :=
  flat_map (fun e => match e with
                     | EvDynamicRmse t f tr => [(t, f, tr)]
                     | _ => []
                     end) l.

(** A computation that leaves the heap alone and makes no call of the
    class [sel]. *)
Definition silent (sel : event E -> bool) {A : Type} (m : M E A) : Prop :=
  forall h, heap (m h) = h /\ filter sel (events (m h)) = [].

Definition with_verbose (v : Z) (h : Heap E) : Heap E :=
  let s := this h in
  mkHeap (mkBuildSarimax (metric s) (seasonality s) (seasonal_period s)
                         (p_max s) (d_max s) (q_max s) (forecast_period s)
                         v (model s))
         (ts_df h).

Definition with_seasonality (b : bool) (h : Heap E) : Heap E :=
  let s := this h in
  mkHeap (mkBuildSarimax (metric s) b (seasonal_period s)
                         (p_max s) (d_max s) (q_max s) (forecast_period s)
                         (verbose s) (model s))
         (ts_df h).

Definition with_ts_df (df : Series) (h : Heap E) : Heap E :=
  mkHeap (this h) df.

End Traces.

Arguments is_numerical {E} e.
Arguments numerical {E} l.
Arguments searches {E} l.
Arguments constructions {E} l.
Arguments fits {E} l.
Arguments static_rmse_calls {E} l.
Arguments dynamic_rmse_calls {E} l.
Arguments is_selection {E} e.
Arguments is_search {E} e.
Arguments static_predictions {E} l.
Arguments silent {E} sel {A} m.
Arguments with_verbose {E} v h.
Arguments with_seasonality {E} b h.
Arguments with_ts_df {E} df h.

(** ** A concrete environment

    A small stand-in for the collaborators, to run the two methods on
    concrete series: the search answers a fixed order and confirms
    seasonality at period 12, the estimator refuses a series of fewer than
    [min_obs] points, forecasts by repeating the last value, and an empty
    frame cannot be plotted. *)

Module Demo.

Definition last_row (s : Series) : timestamp * float := List.last s (0, 0%float).

Definition naive_forecast (train : Series) (steps : Z) : Series :=
  let (t, v) := last_row train in
  map (fun k => (t + Z.of_nat k, v)) (seq 1 (Z.to_nat steps)).

Definition search (ts : Series) (metric : string) (p_max d_max q_max : Z)
    (non_seasonal_pdq : option (Z * Z * Z)) (seasonal_period : option Z)
    (seasonality : bool) (verbose : Z) : result (Z * Z * Z * float * bool) :=
  match non_seasonal_pdq with
  | None => Ok (Z.min 1 p_max, Z.min 1 d_max, 0, 10%float, false)
  | Some _ =>
      Ok (0, Z.min 1 d_max, Z.min 1 q_max, 8%float,
          match seasonal_period with
          | Some s => s =? 12
          | None => false
          end)
  end.

Definition estimate (min_obs : Z) (a : SarimaxArgs) : result SarimaxArgs :=
  if len (endog a) <? min_obs then Raise (PyExc "LinAlgError") else Ok a.

Definition attr (a : SarimaxArgs) (name : string) : result float :=
  if (name =? "aic")%string || (name =? "bic")%string then Ok 10%float
  else Raise AttributeError.

Definition concat (y_truth y_forecasted : Series) : result Concatenated :=
  Ok (map (fun r => (fst (fst r), (snd (fst r), snd (snd r))))
          (combine y_truth y_forecasted)).

Definition plot (rows : Concatenated) : result unit :=
  match rows with
  | [] => Raise (PyExc "TypeError")
  | _ :: _ => Ok tt
  end.

Definition mean (l : list float) : float :=
  (fold_right PrimFloat.add 0 l / PrimFloat.of_uint63 (Uint63.of_Z (len l)))%float.

Definition dynamic_rmse (ts_test y_forecasted ts_train : Series)
    : result (float * float) :=
  let errors := map (fun r => (snd (fst r) - snd (snd r))%float)
                    (combine ts_test y_forecasted) in
  let rmse := PrimFloat.sqrt (mean (map (fun e => (e * e)%float) errors)) in
  Ok (rmse, (rmse / mean (map (fun r => PrimFloat.abs (snd r)) ts_train))%float).

Definition env (min_obs : Z) : Env :=
  {| Model := SarimaxArgs;
     Results := SarimaxArgs;
     ForecastRes := Series;
     Frame := Series;
     Prediction := unit;
     ConfInt := unit;
     Axes := unit;
     BOLD := "[1m";
     END := "[0m";
     find_best_pdq_or_PDQ := search;
     SARIMAX := fun a => Ok a;
     model_fit := estimate min_obs;
     results_attr := attr;
     plot_diagnostics := fun _ => Ok tt;
     results_predict := fun m => Ok (endog m);
     get_prediction := fun _ _ => Ok tt;
     conf_int := fun _ => Ok tt;
     get_forecast := fun m steps => Ok (naive_forecast (endog m) steps);
     summary_frame := fun r => Ok r;
     forecast := fun m steps => Ok (naive_forecast (endog m) steps);
     summary := fun _ => Ok "SARIMAX Results";
     pd_concat := concat;
     frame_plot := plot;
     plot_predicted_mean := fun _ _ => Ok tt;
     fill_between := fun _ _ => Ok tt;
     get_ylim := fun _ => Ok (0%float, 1%float);
     fill_betweenx := fun _ _ _ _ => Ok tt;
     set_xlabel := fun _ _ => Ok tt;
     set_ylabel := fun _ _ => Ok tt;
     plt_legend := Ok tt;
     plt_show := Ok tt;
     print_static_rmse := fun _ _ _ => Ok tt;
     print_dynamic_rmse := dynamic_rmse |}.

(** Six observations of a rising series. *)
Definition series6 : Series :=
  [(1, 10%float); (2, 11%float); (3, 12.5%float); (4, 13%float);
   (5, 14.5%float); (6, 15%float)].

(** Two observations. *)
Definition series2 : Series := [(1, 10%float); (2, 11%float)].

(** [BuildSarimax('bic', seasonality, seasonal_period, 2, 1, 2,
    forecast_period, verbose)] and the frame handed to [fit]. *)
Definition start (min_obs : Z) (seasonality : bool) (seasonal_period : option Z)
    (forecast_period verbose : Z) (ts_df : Series) : Heap (env min_obs) :=
  mkHeap (init (env min_obs) "bic" seasonality seasonal_period 2 1 2
               forecast_period verbose)
         ts_df.

(** The model the stand-in search leads to on [ts_train]. *)
Definition built (ts_train : Series) (seasonal : option (Z * Z * Z * option Z))
    : SarimaxArgs :=
  {| endog := ts_train;
     order := (1, 1, 0);
     seasonal_order := seasonal;
     enforce_stationarity := false;
     enforce_invertibility := false;
     trend := "ct";
     start_params := [0; 0; 0; 1];
     simple_differencing := false |}.

(** The train part of [series6] at horizon 2. *)
Definition train4 : Series := firstn 4 series6.

(** [series6] with other values in the test range of horizon 2. *)
Definition series6_alt : Series := train4 ++ [(5, 99%float); (6, (-3)%float)].

(** An instance after a successful [fit]. *)
Definition trained : Heap (env 3) :=
  @with_model (env 3) (built train4 None) (start 3 false None 2 0 series6).

End Demo.

(** ** Further readings and environments *)

Section MoreReadings.

Variable E : Env.

(** The matplotlib calls. *)
Definition is_plotting (e : event E) : bool :=
  match e with
  | EvPlotDiagnostics _ | EvFramePlot _ | EvGetPrediction _ _ | EvConfInt _
  | EvPlotMean _ _ | EvFillBetween _ _ | EvGetYlim _ | EvFillBetweenx _ _ _ _
  | EvSetXlabel _ _ | EvSetYlabel _ _ | EvLegend | EvShow => true
  | _ => false
  end.

(** The plotting calls of a trace. *)
Definition plotting (l : list (event E)) : list (event E) := filter is_plotting l.

(** The results and horizons of the [forecast] and [get_forecast] calls. *)
Definition forecast_calls (l : list (event E)) : list (Results E * Z) :=
  flat_map (fun e => match e with
                     | EvForecast m n => [(m, n)]
                     | EvGetForecast m n => [(m, n)]
                     | _ => []
                     end) l.

End MoreReadings.

Arguments is_plotting {E} e.
Arguments plotting {E} l.
Arguments forecast_calls {E} l.

(** [E] with another order search. *)
Definition with_search (E : Env)
    (search : Series -> string -> Z -> Z -> Z -> option (Z * Z * Z) -> option Z ->
              bool -> Z -> result (Z * Z * Z * float * bool)) : Env :=
  {| Model := Model E;
     Results := Results E;
     ForecastRes := ForecastRes E;
     Frame := Frame E;
     Prediction := Prediction E;
     ConfInt := ConfInt E;
     Axes := Axes E;
     BOLD := BOLD E;
     END := END E;
     find_best_pdq_or_PDQ := search;
     SARIMAX := SARIMAX E;
     model_fit := model_fit E;
     results_attr := results_attr E;
     plot_diagnostics := plot_diagnostics E;
     results_predict := results_predict E;
     get_prediction := get_prediction E;
     conf_int := conf_int E;
     get_forecast := get_forecast E;
     summary_frame := summary_frame E;
     forecast := forecast E;
     summary := summary E;
     pd_concat := pd_concat E;
     frame_plot := frame_plot E;
     plot_predicted_mean := plot_predicted_mean E;
     fill_between := fill_between E;
     get_ylim := get_ylim E;
     fill_betweenx := fill_betweenx E;
     set_xlabel := set_xlabel E;
     set_ylabel := set_ylabel E;
     plt_legend := plt_legend E;
     plt_show := plt_show E;
     print_static_rmse := print_static_rmse E;
     print_dynamic_rmse := print_dynamic_rmse E |}.

Module Lab.

(** A search that refuses an empty series. *)
Definition strict_search (ts : Series) (metric : string) (p_max d_max q_max : Z)
    (non_seasonal_pdq : option (Z * Z * Z)) (seasonal_period : option Z)
    (seasonality : bool) (verbose : Z) : result (Z * Z * Z * float * bool) :=
  match ts with
  | [] => Raise (PyExc "ValueError")
  | _ :: _ => Demo.search ts metric p_max d_max q_max non_seasonal_pdq
                          seasonal_period seasonality verbose
  end.

(** A search that confirms seasonality whatever the period. *)
Definition eager_search (ts : Series) (metric : string) (p_max d_max q_max : Z)
    (non_seasonal_pdq : option (Z * Z * Z)) (seasonal_period : option Z)
    (seasonality : bool) (verbose : Z) : result (Z * Z * Z * float * bool) :=
  match non_seasonal_pdq with
  | None => Demo.search ts metric p_max d_max q_max None seasonal_period
                        seasonality verbose
  | Some _ => Ok (0, 1, 1, 8%float, true)
  end.

Definition strict : Env := with_search (Demo.env 3) strict_search.
Definition eager : Env := with_search (Demo.env 3) eager_search.

(** [BuildSarimax(metric, seasonality, seasonal_period, 2, 1, 2,
    forecast_period, verbose)] in environment [E], and the frame handed to
    [fit]. *)
Definition start (E : Env) (metric : string) (seasonality : bool)
    (seasonal_period : option Z) (forecast_period verbose : Z) (ts_df : Series)
    : Heap E :=
  mkHeap (init E metric seasonality seasonal_period 2 1 2 forecast_period verbose)
         ts_df.

End Lab.

(** ** The caller's frame as a shared buffer

    [ts_df[:-k]] and [ts_df[-k:]] are pandas slices: windows on the rows of
    the caller's frame, not copies, and the objects built from them keep
    them (a [SARIMAX] model keeps its [endog]).  A collaborator that is
    handed such an object can write into the caller's frame.  This second
    reading of the two methods follows the frame itself: a slice is a
    window that is read when it is used, and every collaborator call may
    leave the frame changed.  What a call returns is still the value of the
    collaborator on its arguments as they are when the call is made. *)

Module InPlace.

(** A slice of the frame: [count] rows of its buffer, from row [first]. *)
Record View : Type := mkView {
  first : nat;
  count : nat
}.

(** The rows a view shows of the buffer as it is now. *)
Definition rows (v : View) (buf : Series) : Series :=
  firstn (count v) (skipn (first v) buf).

(** [ts_df[:stop]] *)
Definition view_to (buf : Series) (stop : Z) : View :=
  mkView 0 (Z.to_nat (bound (len buf) stop)).

(** [ts_df[start:]] *)
Definition view_from (buf : Series) (start : Z) : View :=
  let k := Z.to_nat (bound (len buf) start) in
  mkView k (List.length buf - k).

Section Run.

Variable E : Env.

(** [touch ev buf]: the frame that the collaborator call traced as [ev]
    leaves, when it finds the frame as [buf].  A call that only reads has
    [touch ev buf = buf]. *)
Variable touch : event E -> Series -> Series.

(** What a traced step does to the frame: [print] is the interpreter's
    own and cannot reach it. *)
Definition effect (ev : event E) (buf : Series) : Series :=
  match ev with
  | EvPrint _ _ => buf
  | _ => touch ev buf
  end.

(** The frame after the calls of a trace, in order. *)
Definition written (l : list (event E)) (buf : Series) : Series :=
  fold_left (fun b ev => effect ev b) l buf.

(** A collaborator call: traced, the frame as the call leaves it, then its
    outcome. *)
Definition invoke {A : Type} (ev : event E) (r : result A) : M E A :=
  fun h => ([ev], with_ts_df (effect ev (ts_df h)) h, r).

Declare Scope py_scope.
Notation "x <- c1 ;; c2" := (bind c1 (fun x => c2))
  (at level 61, c1 at next level, right associativity) : py_scope.
Notation "' pat <- c1 ;; c2" := (bind c1 (fun x => match x with pat => c2 end))
  (at level 61, pat pattern, c1 at next level, right associativity) : py_scope.
Notation "e1 ;; e2" := (bind e1 (fun _ => e2))
  (at level 61, right associativity) : py_scope.
Open Scope py_scope.

(** [BuildSarimax.predict] (lines 170-181) *)
Definition predict (forecast_period' : option Z) : M E Series :=
  self <- get_self E ;;
  match forecast_period' with
  | None =>
      m <- self_model E ;;
      invoke (EvForecast m (forecast_period self)) (forecast E m (forecast_period self))
  | Some n =>
      m <- self_model E ;;
      invoke (EvForecast m n) (forecast E m n)
  end.

(** Lines 116-119. *)
Definition show_diagnostics : M E unit :=
  try_except
    (m <- self_model E ;;
     invoke (EvPlotDiagnostics m) (plot_diagnostics E m))
    (print E "Error: SARIMAX plot diagnostic. Continuing..." []).

(** Lines 144-158.  [ts_df.index] and [ts_train.index] are read where the
    source reads them. *)
Definition plot_dynamic_forecast (self : BuildSarimax E) (ts_train : View)
    (concatenated : Concatenated) (best_d : Z) : M E unit :=
  let rows' := slice_from concatenated best_d in
  ax <- invoke (EvFramePlot rows') (frame_plot E rows') ;;
  now <- get_ts_df E ;;
  startdate <- lift E (index (index_of now) (- forecast_period self - 1)) ;;
  m <- self_model E ;;
  pred_dynamic <- invoke (EvGetPrediction m startdate) (get_prediction E m startdate) ;;
  pred_dynamic_ci <- invoke (EvConfInt pred_dynamic) (conf_int E pred_dynamic) ;;
  invoke (EvPlotMean pred_dynamic ax) (plot_predicted_mean E pred_dynamic ax) ;;
  try_except
    (invoke (EvFillBetween ax pred_dynamic_ci) (fill_between E ax pred_dynamic_ci) ;;
     ylim <- invoke (EvGetYlim ax) (get_ylim E ax) ;;
     now <- get_ts_df E ;;
     last <- lift E (index (index_of (rows ts_train now)) (-1)) ;;
     invoke (EvFillBetweenx ax ylim startdate last)
            (fill_betweenx E ax ylim startdate last))
    (ret E tt) ;;
  invoke (EvSetXlabel ax "Date") (set_xlabel E ax "Date") ;;
  invoke (EvSetYlabel ax "Levels") (set_ylabel E ax "Levels") ;;
  invoke EvLegend (plt_legend E) ;;
  invoke EvShow (plt_show E).

(** Lines 44-46, 63-67 and 69-73: the order search on the train view. *)
Definition search (self : BuildSarimax E) (ts_train : View)
    (non_seasonal_pdq : option (Z * Z * Z)) (seasonal_period : option Z)
    (seasonality : bool) : M E (Z * Z * Z * float * bool) :=
  now <- get_ts_df E ;;
  invoke (EvSearch (rows ts_train now) (metric self) (p_max self) (d_max self)
                   (q_max self) non_seasonal_pdq seasonal_period seasonality
                   (verbose self))
         (find_best_pdq_or_PDQ E (rows ts_train now) (metric self) (p_max self)
                               (d_max self) (q_max self) non_seasonal_pdq
                               seasonal_period seasonality (verbose self)).

(** Lines 54-59, 86-91 and 100-105: the construction on the train view. *)
Definition construct (ts_train : View) (order : Z * Z * Z)
    (seasonal_order : option (Z * Z * Z * option Z)) : M E (Model E) :=
  now <- get_ts_df E ;;
  let a := {| endog := rows ts_train now;
              order := order;
              seasonal_order := seasonal_order;
              enforce_stationarity := false;
              enforce_invertibility := false;
              trend := "ct";
              start_params := [0; 0; 0; 1];
              simple_differencing := false |} in
  invoke (EvSARIMAX a) (SARIMAX E a).

(** [BuildSarimax.fit] (lines 30-168) *)
Definition fit : M E (FitResult E) :=
  self <- get_self E ;;
  ts_df <- get_ts_df E ;;
  (* lines 35-39 *)
  let ts_train := view_to ts_df (- forecast_period self) in
  let ts_test := view_from ts_df (- forecast_period self) in
  when E (verbose self =? 1)
    (print E "Data Set split into train %s and test %s for Cross Validation Purposes"
           [FShape (List.length (rows ts_train ts_df));
            FShape (List.length (rows ts_test ts_df))]) ;;
  (* lines 41-105 *)
  ' (best_d, bestmodel) <-
    (if negb (seasonality self) then
       print E "Building a Non Seasonal Model..." [] ;;
       print E "\nFinding best Non Seasonal Parameters:" [] ;;
       ' (best_p, best_d, best_q, best_bic, seasonality') <-
         search self ts_train None None false ;;
       print E "\nBest model is: Non Seasonal SARIMAX(%d,%d,%d), %s = %0.3f"
             [FInt best_p; FInt best_d; FInt best_q; FStr (metric self); FFloat best_bic] ;;
       bestmodel <- construct ts_train (best_p, best_d, best_q) None ;;
       ret E (best_d, bestmodel)
     else
       print E (BOLD E ++ "Building a Seasonal Model..." ++ END E) [] ;;
       print E (BOLD E ++ "\n    Finding best Non-Seasonal pdq Parameters:" ++ END E) [] ;;
       ' (best_p, best_d, best_q, best_bic, seasonality') <-
         search self ts_train None None false ;;
       print E (BOLD E ++ "\n    Finding best Seasonal PDQ Model Parameters:" ++ END E) [] ;;
       ' (best_P, best_D, best_Q, best_bic, seasonality') <-
         search self ts_train (Some (best_p, best_d, best_q)) (seasonal_period self)
                true ;;
       if seasonality' then
         s <- lift E (fmt_d (seasonal_period self)) ;;
         print E "\nBest model is a Seasonal SARIMAX(%d,%d,%d)*(%d,%d,%d,%d), %s = %0.3f"
               [FInt best_p; FInt best_d; FInt best_q; FInt best_P; FInt best_D;
                FInt best_Q; s; FStr (metric self); FFloat best_bic] ;;
         bestmodel <- construct ts_train (best_p, best_d, best_q)
                                (Some (best_P, best_D, best_Q, seasonal_period self)) ;;
         ret E (best_d, bestmodel)
       else
         print E "\nBest model is a Non Seasonal SARIMAX(%d,%d,%d)"
               [FInt best_p; FInt best_d; FInt best_q] ;;
         bestmodel <- construct ts_train (best_p, best_d, best_q) None ;;
         ret E (best_d, bestmodel)) ;;
  (* lines 107-113 *)
  print E (BOLD E ++ "Fitting best SARIMAX model for full data set" ++ END E) [] ;;
  returned <-
    try_except
      (m <- invoke (EvFit bestmodel) (model_fit E bestmodel) ;;
       set_model m ;;
       m <- self_model E ;;
       v <- invoke (EvAttr m (metric self)) (results_attr E m (metric self)) ;;
       print E "    Best %s metric = %0.1f" [FStr (metric self); FFloat v] ;;
       ret E None)
      (print E "Error: Getting Singular Matrix. Please try using other PDQ parameters or turn off Seasonality" [] ;;
       ret E (Some (Unfitted bestmodel, None, infinity, infinity))) ;;
  match returned with
  | Some sentinel => ret E sentinel
  | None =>
      (* lines 115-119 *)
      when E (verbose self =? 1) show_diagnostics ;;
      (* lines 122-124: [ts_train[:]] is the same window *)
      let y_truth := ts_train in
      m <- self_model E ;;
      y_forecasted <- invoke (EvPredict m) (results_predict E m) ;;
      now <- get_ts_df E ;;
      concatenated <- invoke (EvConcat (rows y_truth now) y_forecasted)
                             (pd_concat E (rows y_truth now) y_forecasted) ;;
      (* lines 127-133 *)
      when E (verbose self =? 1)
        (print E "Static Forecasts:" [] ;;
         let original := slice_from (col_original concatenated) best_d in
         let predicted := slice_from (col_predicted concatenated) best_d in
         invoke (EvStaticRmse original predicted (verbose self))
                (print_static_rmse E original predicted (verbose self))) ;;
      (* lines 143-158 *)
      when E (verbose self =? 1)
        (plot_dynamic_forecast self ts_train concatenated best_d) ;;
      (* lines 161-168 *)
      m <- self_model E ;;
      res2 <- invoke (EvGetForecast m (forecast_period self))
                     (get_forecast E m (forecast_period self)) ;;
      res2_df <- invoke (EvSummaryFrame res2) (summary_frame E res2) ;;
      y_forecasted <- predict None ;;
      when E (verbose self =? 1)
        (m <- self_model E ;;
         text <- invoke (EvSummary m) (summary E m) ;;
         print E "%s" [FStr text]) ;;
      print E "Dynamic %d-Period Forecast:" [FInt (forecast_period self)] ;;
      now <- get_ts_df E ;;
      ' (rmse, norm_rmse) <-
        invoke (EvDynamicRmse (rows ts_test now) y_forecasted (rows ts_train now))
               (print_dynamic_rmse E (rows ts_test now) y_forecasted (rows ts_train now)) ;;
      m <- self_model E ;;
      ret E (Fitted m, Some res2_df, rmse, norm_rmse)
  end.

(** A computation whose effect on the frame is that of its calls. *)
Definition tracked {A : Type} (m : M E A) : Prop :=
  forall h, ts_df (heap (m h)) = written (events (m h)) (ts_df h).

End Run.

(** Two computations that run alike from every heap whose frame is [df],
    the second leaving the frame alone. *)
Definition agree (E : Env) (df : Series) {A : Type} (m1 m2 : M E A) : Prop :=
  forall h, ts_df h = df -> m1 h = m2 h /\ ts_df (heap (m2 h)) = df.

End InPlace.

Arguments InPlace.tracked {E} touch {A} m.
Arguments InPlace.agree {E} df {A} m1 m2.

(** A seasonal search pass that overwrites the values of the series it is
    handed; every other call only reads. *)
Module Writers.

Definition zeroed (n : nat) (buf : Series) : Series :=
  map (fun row => (fst row, 0%float)) (firstn n buf) ++ skipn n buf.

Definition seasonal_pass (E : Env) (ev : event E) (buf : Series) : Series :=
  match ev with
  | EvSearch ts _ _ _ _ _ _ true _ => zeroed (List.length ts) buf
  | _ => buf
  end.

End Writers.

(** ** Symbolic execution of the two methods

    [wp m h Q]: running [m] from heap [h] yields a trace, a heap and an
    outcome that satisfy [Q].  One rule per operation of the monad. *)

Section Exec.

Variable E : Env.

Definition wp {A : Type} (m : M E A) (h : Heap E)
    (Q : list (event E) -> Heap E -> result A -> Prop) : Prop :=
  Q (events (m h)) (heap (m h)) (outcome (m h)).

Lemma wp_run {A : Type} (m : M E A) (h : Heap E)
    (P : list (event E) * Heap E * result A -> Prop) :
  wp m h (fun l h' r => P (l, h', r)) -> P (m h).
Proof.
  unfold wp, events, heap, outcome.
  destruct (m h) as [[l h'] r]. exact (fun H => H).
Qed.

Lemma wp_ret {A : Type} (a : A) h Q : Q [] h (Ok a) -> wp (ret E a) h Q.
Proof. exact (fun H => H). Qed.

Lemma wp_lift {A : Type} (r : result A) h Q : Q [] h r -> wp (lift E r) h Q.
Proof. exact (fun H => H). Qed.

Lemma wp_call {A : Type} ev (r : result A) h Q : Q [ev] h r -> wp (call ev r) h Q.
Proof. exact (fun H => H). Qed.

Lemma wp_print t a h Q : Q [EvPrint t a] h (Ok tt) -> wp (print E t a) h Q.
Proof. exact (fun H => H). Qed.

Lemma wp_get_self h Q : Q [] h (Ok (this h)) -> wp (get_self E) h Q.
Proof. exact (fun H => H). Qed.

Lemma wp_get_ts_df h Q : Q [] h (Ok (ts_df h)) -> wp (get_ts_df E) h Q.
Proof. exact (fun H => H). Qed.

Lemma wp_set_model m h Q : Q [] (with_model m h) (Ok tt) -> wp (set_model m) h Q.
Proof. exact (fun H => H). Qed.

Lemma wp_self_model h Q :
  Q [] h (match model (this h) with
          | Some m => Ok m
          | None => Raise AttributeError
          end) ->
  wp (self_model E) h Q.
Proof. exact (fun H => H). Qed.

Lemma wp_when (b : bool) (m : M E unit) h Q :
  wp (if b then m else ret E tt) h Q -> wp (when E b m) h Q.
Proof. exact (fun H => H). Qed.

Lemma wp_bind {A B : Type} (m : M E A) (k : A -> M E B) h Q :
  wp m h (fun l1 h1 r =>
            match r with
            | Ok a => wp (k a) h1 (fun l2 h2 r2 => Q (l1 ++ l2) h2 r2)
            | Raise e => Q l1 h1 (Raise e)
            end) ->
  wp (bind m k) h Q.
Proof.
  unfold wp, bind, events, heap, outcome.
  destruct (m h) as [[l1 h1] [a | e]]; simpl; [ | exact (fun H => H)].
  destruct (k a h1) as [[l2 h2] r2]. exact (fun H => H).
Qed.

Lemma wp_try {A : Type} (m handler : M E A) h Q :
  wp m h (fun l1 h1 r =>
            match r with
            | Ok a => Q l1 h1 (Ok a)
            | Raise _ => wp handler h1 (fun l2 h2 r2 => Q (l1 ++ l2) h2 r2)
            end) ->
  wp (try_except m handler) h Q.
Proof.
  unfold wp, try_except, events, heap, outcome.
  destruct (m h) as [[l1 h1] [a | e]]; simpl; [exact (fun H => H) | ].
  destruct (handler h1) as [[l2 h2] r2]. exact (fun H => H).
Qed.

(** A silent computation is stepped over as a whole. *)
Lemma wp_silent sel {A : Type} (m : M E A) h Q :
  silent sel m ->
  (forall l r, filter sel l = [] -> Q l h r) ->
  wp m h Q.
Proof.
  intros Hm HQ. unfold wp. destruct (Hm h) as [Hh Hl].
  rewrite Hh. apply HQ. exact Hl.
Qed.

(** *** Silence is compositional *)

Variable sel : event E -> bool.

Lemma silent_ret {A : Type} (a : A) : silent sel (ret E a).
Proof. intro h. split; reflexivity. Qed.

Lemma silent_lift {A : Type} (r : result A) : silent sel (lift E r).
Proof. intro h. split; reflexivity. Qed.

Lemma silent_get_self : silent sel (get_self E).
Proof. intro h. split; reflexivity. Qed.

Lemma silent_self_model : silent sel (self_model E).
Proof. intro h. split; reflexivity. Qed.

Lemma silent_call {A : Type} ev (r : result A) :
  sel ev = false -> silent sel (call ev r).
Proof.
  intros Hev h. split; [reflexivity | ].
  unfold call, events. simpl. now rewrite Hev.
Qed.

Lemma silent_bind {A B : Type} (m : M E A) (k : A -> M E B) :
  silent sel m -> (forall a, silent sel (k a)) -> silent sel (bind m k).
Proof.
  intros Hm Hk h. destruct (Hm h) as [Hh Hl].
  unfold bind, heap, events in *.
  destruct (m h) as [[l1 h1] [a | e]]; simpl in *; [ | now split].
  subst h1. destruct (Hk a h) as [Hh2 Hl2].
  unfold heap, events in *.
  destruct (k a h) as [[l2 h2] r2]; simpl in *.
  split; [exact Hh2 | ]. now rewrite filter_app, Hl, Hl2.
Qed.

Lemma silent_try {A : Type} (m handler : M E A) :
  silent sel m -> silent sel handler -> silent sel (try_except m handler).
Proof.
  intros Hm Hh h. destruct (Hm h) as [Hh1 Hl1].
  unfold try_except, heap, events in *.
  destruct (m h) as [[l1 h1] [a | e]]; simpl in *; [now split | ].
  subst h1. destruct (Hh h) as [Hh2 Hl2].
  unfold heap, events in *.
  destruct (handler h) as [[l2 h2] r2]; simpl in *.
  split; [exact Hh2 | ]. now rewrite filter_app, Hl1, Hl2.
Qed.

End Exec.

Arguments wp {E A} m h Q.

Ltac wp_reduce :=
  cbv beta iota zeta delta
    [this ts_df metric seasonality seasonal_period p_max d_max q_max
     forecast_period verbose model with_model with_verbose with_seasonality
     with_ts_df negb fmt_d].

(** Silence of a block, by its syntax. *)
Ltac silent_solve :=
  repeat first
    [ apply silent_bind
    | apply silent_try
    | apply silent_ret
    | apply silent_lift
    | apply silent_get_self
    | apply silent_self_model
    | apply silent_call; reflexivity
    | match goal with
      | |- forall _, _ => intro
      | |- silent _ (match ?x with _ => _ end) => destruct x
      end
    | progress cbv beta iota zeta
    | progress unfold print, when, predict, show_diagnostics,
        plot_dynamic_forecast ].

(** One step: the rule of the operation at the head, or a case split on
    the outcome of the call just made (after using what is known of it). *)
Ltac wp_step :=
  lazymatch goal with
  | |- wp (bind _ _) _ _ => apply wp_bind
  | |- wp (try_except _ _) _ _ => apply wp_try
  | |- wp (ret _ _) _ _ => apply wp_ret
  | |- wp (lift _ _) _ _ => apply wp_lift
  | |- wp (call _ _) _ _ => apply wp_call
  | |- wp (print _ _ _) _ _ => apply wp_print
  | |- wp (get_self _) _ _ => apply wp_get_self
  | |- wp (get_ts_df _) _ _ => apply wp_get_ts_df
  | |- wp (set_model _) _ _ => apply wp_set_model
  | |- wp (self_model _) _ _ => apply wp_self_model
  | |- wp (when _ _ _) _ _ => apply wp_when
  | |- wp (predict _ _) _ _ => unfold predict
  | |- wp (fit _) _ _ => unfold fit
  | |- wp (match ?x with _ => _ end) _ _ =>
      first [ match goal with H : x = _ |- _ => rewrite H end
            | destruct x eqn:? ]
  | |- match ?x with _ => _ end =>
      first [ match goal with H : x = _ |- _ => rewrite H end
            | destruct x eqn:? ]
  end; wp_reduce.

(** The two presentation blocks are stepped over: their trace is some [l]
    without numerical calls. *)
Ltac wp_block :=
  lazymatch goal with
  | |- wp (show_diagnostics _) _ _ => idtac
  | |- wp (plot_dynamic_forecast _ _ _ _ _ _) _ _ => idtac
  end;
  apply (wp_silent _ is_numerical); [silent_solve | ];
  let l := fresh "l" in
  let r := fresh "r" in
  let Hl := fresh "Hl" in
  intros l r Hl; wp_reduce.

(** After the final fit, [fit] makes no selection call and leaves the heap
    alone: what follows is stepped over when only those calls matter. *)
Ltac wp_tail :=
  lazymatch goal with
  | |- wp (bind (when _ _ (show_diagnostics _)) _) _ _ => idtac
  end;
  apply (wp_silent _ is_selection); [silent_solve | ];
  let l := fresh "l" in
  let r := fresh "r" in
  let Hl := fresh "Hl" in
  intros l r Hl; wp_reduce.

(** Execution of [fit] path by path. *)
Ltac fit_exec := repeat first [wp_block | wp_step].

(** Execution of [fit] up to the final fit. *)
Ltac fit_select := repeat first [wp_tail | wp_step].

(** Turn a goal about one run [m h] into a [wp] goal; the property to
    prove of the run is kept aside, by name, until the run is over. *)
Ltac wp_start m :=
  match goal with
  | |- context [m ?h] =>
      pattern (m h);
      match goal with
      | |- ?P _ =>
          let Post := fresh "Post" in
          set (Post := P); apply wp_run; wp_reduce
      end
  end.

Ltac wp_finish :=
  repeat match goal with
         | P := _ |- _ => subst P
         end;
  cbv beta.

Section Readings.

Variable E : Env.

(** What a trace without numerical calls contributes to each reading. *)
Lemma quiet_numerical (l : list (event E)) :
  filter is_numerical l = [] ->
  filter is_selection l = [] /\ static_predictions l = [] /\
  static_rmse_calls l = [] /\ dynamic_rmse_calls l = [].
Proof.
  unfold static_predictions, static_rmse_calls, dynamic_rmse_calls.
  induction l as [ | e l IH]; [now auto | ].
  destruct e; simpl; try discriminate; exact IH.
Qed.

(** What a trace without selection calls contributes to each reading. *)
Lemma quiet_selection (l : list (event E)) :
  filter is_selection l = [] ->
  searches l = [] /\ constructions l = [] /\ fits l = [].
Proof.
  unfold searches, constructions, fits.
  induction l as [ | e l IH]; [now auto | ].
  destruct e; simpl; try discriminate; exact IH.
Qed.

End Readings.

(** Normal form of a reading of a trace built by execution. *)
Ltac trace_norm :=
  repeat match goal with
         | H : filter is_numerical ?l = [] |- _ =>
             let H1 := fresh "Hsel" in
             let H2 := fresh "Hpred" in
             let H3 := fresh "Hstatic" in
             let H4 := fresh "Hdynamic" in
             destruct (quiet_numerical _ l H) as (H1 & H2 & H3 & H4); clear H
         | H : filter is_selection ?l = [] |- _ =>
             let H1 := fresh "Hsearches" in
             let H2 := fresh "Hconstr" in
             let H3 := fresh "Hfits" in
             destruct (quiet_selection _ l H) as (H1 & H2 & H3); clear H
         end;
  unfold numerical, searches, constructions, fits, static_predictions,
    static_rmse_calls, dynamic_rmse_calls in *;
  repeat (simpl; rewrite ?filter_app, ?flat_map_app);
  repeat match goal with
         | H : filter _ ?l = [] |- _ => rewrite ?H; clear H
         | H : flat_map _ ?l = [] |- _ => rewrite ?H; clear H
         end;
  simpl.

(** ** The frame under collaborator calls *)

Section Frames.

Variable E : Env.
Variable touch : event E -> Series -> Series.

Lemma written_app (l1 l2 : list (event E)) (buf : Series) :
  InPlace.written E touch (l1 ++ l2) buf
  = InPlace.written E touch l2 (InPlace.written E touch l1 buf).
Proof. apply fold_left_app. Qed.

(** Calls that only read leave the frame as it was. *)
Lemma written_read_only (l : list (event E)) (buf : Series) :
  (forall ev b, In ev l -> touch ev b = b) -> InPlace.written E touch l buf = buf.
Proof.
  revert buf. induction l as [ | ev l IH]; intros buf Hro; [reflexivity | ].
  change (InPlace.written E touch (ev :: l) buf)
    with (InPlace.written E touch l (InPlace.effect E touch ev buf)).
  rewrite IH by (intros ev' b Hin; apply Hro; now right).
  destruct ev; try reflexivity; apply Hro; now left.
Qed.

(** *** Every operation is tracked *)

Lemma tracked_ret {A : Type} (a : A) : InPlace.tracked touch (ret E a).
Proof. intro h. reflexivity. Qed.

Lemma tracked_lift {A : Type} (r : result A) : InPlace.tracked touch (lift E r).
Proof. intro h. reflexivity. Qed.

Lemma tracked_get_self : InPlace.tracked touch (get_self E).
Proof. intro h. reflexivity. Qed.

Lemma tracked_get_ts_df : InPlace.tracked touch (get_ts_df E).
Proof. intro h. reflexivity. Qed.

Lemma tracked_self_model : InPlace.tracked touch (self_model E).
Proof. intro h. reflexivity. Qed.

Lemma tracked_set_model (m : Results E) : InPlace.tracked touch (set_model m).
Proof. intro h. reflexivity. Qed.

Lemma tracked_print (t : string) (a : list fmtarg) : InPlace.tracked touch (print E t a).
Proof. intro h. reflexivity. Qed.

Lemma tracked_invoke {A : Type} (ev : event E) (r : result A) :
  InPlace.tracked touch (InPlace.invoke E touch ev r).
Proof. intro h. reflexivity. Qed.

Lemma tracked_bind {A B : Type} (m : M E A) (k : A -> M E B) :
  InPlace.tracked touch m -> (forall a, InPlace.tracked touch (k a)) ->
  InPlace.tracked touch (bind m k).
Proof.
  intros Hm Hk h. specialize (Hm h).
  unfold bind, heap, events in *.
  destruct (m h) as [[l1 h1] [a | e]]; simpl in *; [ | exact Hm].
  specialize (Hk a h1). unfold heap, events in Hk.
  destruct (k a h1) as [[l2 h2] r2]; simpl in *.
  now rewrite written_app, <- Hm.
Qed.

Lemma tracked_try {A : Type} (m handler : M E A) :
  InPlace.tracked touch m -> InPlace.tracked touch handler ->
  InPlace.tracked touch (try_except m handler).
Proof.
  intros Hm Hh h. specialize (Hm h).
  unfold try_except, heap, events in *.
  destruct (m h) as [[l1 h1] [a | e]]; simpl in *; [exact Hm | ].
  specialize (Hh h1). unfold heap, events in Hh.
  destruct (handler h1) as [[l2 h2] r2]; simpl in *.
  now rewrite written_app, <- Hm.
Qed.

Lemma tracked_when (b : bool) (m : M E unit) :
  InPlace.tracked touch m -> InPlace.tracked touch (when E b m).
Proof. intro Hm. destruct b; [exact Hm | apply tracked_ret]. Qed.

(** *** Slices read from the frame they were cut from *)

Lemma rows_view_to (df : Series) (stop : Z) :
  InPlace.rows (InPlace.view_to df stop) df = slice_to df stop.
Proof. reflexivity. Qed.

Lemma rows_view_from (df : Series) (start : Z) :
  InPlace.rows (InPlace.view_from df start) df = slice_from df start.
Proof.
  unfold InPlace.rows, InPlace.view_from, slice_from. simpl.
  apply firstn_all2. rewrite length_skipn. apply Nat.le_refl.
Qed.

(** *** With collaborators that only read, the two readings agree *)

Hypothesis read_only : forall ev buf, touch ev buf = buf.

Lemma agree_ret (df : Series) {A : Type} (a : A) :
  InPlace.agree df (ret E a) (ret E a).
Proof. intros h Hh. now split. Qed.

Lemma agree_lift (df : Series) {A : Type} (r : result A) :
  InPlace.agree df (lift E r) (lift E r).
Proof. intros h Hh. now split. Qed.

Lemma agree_get_self (df : Series) : InPlace.agree df (get_self E) (get_self E).
Proof. intros h Hh. now split. Qed.

Lemma agree_self_model (df : Series) : InPlace.agree df (self_model E) (self_model E).
Proof. intros h Hh. now split. Qed.

Lemma agree_set_model (df : Series) (m : Results E) :
  InPlace.agree df (set_model m) (set_model m).
Proof. intros h Hh. now split. Qed.

Lemma agree_print (df : Series) (t : string) (a : list fmtarg) :
  InPlace.agree df (print E t a) (print E t a).
Proof. intros h Hh. now split. Qed.

Lemma agree_invoke (df : Series) {A : Type} (ev : event E) (r : result A) :
  InPlace.agree df (InPlace.invoke E touch ev r) (call ev r).
Proof.
  intros h Hh. split; [ | exact Hh].
  unfold InPlace.invoke, call.
  replace (InPlace.effect E touch ev (ts_df h)) with (ts_df h)
    by (destruct ev; try reflexivity; symmetry; apply read_only).
  now destruct h.
Qed.

Lemma agree_bind (df : Series) {A B : Type} (m1 m2 : M E A) (k1 k2 : A -> M E B) :
  InPlace.agree df m1 m2 -> (forall a, InPlace.agree df (k1 a) (k2 a)) ->
  InPlace.agree df (bind m1 k1) (bind m2 k2).
Proof.
  intros Hm Hk h Hh. destruct (Hm h Hh) as [Hrun Hdf].
  unfold bind, heap in *. rewrite Hrun.
  destruct (m2 h) as [[l1 h1] [a | e]]; simpl in *; [ | now split].
  destruct (Hk a h1 Hdf) as [Hrun2 Hdf2]. unfold heap in Hdf2. rewrite Hrun2.
  destruct (k2 a h1) as [[l2 h2] r2]; simpl in *. now split.
Qed.

Lemma agree_try (df : Series) {A : Type} (m1 m2 handler1 handler2 : M E A) :
  InPlace.agree df m1 m2 -> InPlace.agree df handler1 handler2 ->
  InPlace.agree df (try_except m1 handler1) (try_except m2 handler2).
Proof.
  intros Hm Hk h Hh. destruct (Hm h Hh) as [Hrun Hdf].
  unfold try_except, heap in *. rewrite Hrun.
  destruct (m2 h) as [[l1 h1] [a | e]]; simpl in *; [now split | ].
  destruct (Hk h1 Hdf) as [Hrun2 Hdf2]. unfold heap in Hdf2. rewrite Hrun2.
  destruct (handler2 h1) as [[l2 h2] r2]; simpl in *. now split.
Qed.

Lemma agree_when (df : Series) (b : bool) (m1 m2 : M E unit) :
  InPlace.agree df m1 m2 -> InPlace.agree df (when E b m1) (when E b m2).
Proof. intro Hm. destruct b; [exact Hm | apply agree_ret]. Qed.

(** The frame is read on both sides. *)
Lemma agree_get (df : Series) {A : Type} (k1 k2 : Series -> M E A) :
  InPlace.agree df (k1 df) (k2 df) ->
  InPlace.agree df (bind (get_ts_df E) k1) (bind (get_ts_df E) k2).
Proof.
  intros Hk h Hh. destruct (Hk h Hh) as [Hrun Hdf].
  unfold bind, get_ts_df, heap in *. rewrite Hh, Hrun.
  destruct (k2 df h) as [[l2 h2] r2]; simpl in *. now split.
Qed.

(** The frame is read where the first reading holds a copy of it. *)
Lemma agree_read (df : Series) {A : Type} (k1 : Series -> M E A) (m2 : M E A) :
  InPlace.agree df (k1 df) m2 -> InPlace.agree df (bind (get_ts_df E) k1) m2.
Proof.
  intros Hk h Hh. destruct (Hk h Hh) as [Hrun Hdf].
  unfold bind, get_ts_df, heap in *. rewrite Hh, Hrun.
  destruct (m2 h) as [[l2 h2] r2]; simpl in *. now split.
Qed.

End Frames.

Ltac tracked_solve :=
  repeat first
    [ apply tracked_bind
    | apply tracked_try
    | apply tracked_when
    | apply tracked_ret
    | apply tracked_lift
    | apply tracked_get_self
    | apply tracked_get_ts_df
    | apply tracked_self_model
    | apply tracked_set_model
    | apply tracked_print
    | apply tracked_invoke
    | match goal with
      | |- forall _, _ => intro
      | |- InPlace.tracked _ (match ?x with _ => _ end) => destruct x
      end
    | progress cbv beta iota zeta
    | progress unfold InPlace.predict, InPlace.show_diagnostics,
        InPlace.plot_dynamic_forecast, InPlace.search, InPlace.construct ].

Ltac agree_solve read_only :=
  repeat first
    [ apply agree_get
    | apply agree_read
    | apply agree_bind
    | apply agree_try
    | apply agree_when
    | apply agree_ret
    | apply agree_lift
    | apply agree_get_self
    | apply agree_self_model
    | apply agree_set_model
    | apply agree_print
    | apply (agree_invoke _ _ read_only)
    | progress rewrite ?rows_view_to, ?rows_view_from
    | match goal with
      | |- forall _, _ => intro
      | |- InPlace.agree _ (match ?x with _ => _ end) _ => destruct x
      end
    | progress cbv beta iota zeta
    | progress unfold InPlace.predict, InPlace.show_diagnostics,
        InPlace.plot_dynamic_forecast, InPlace.search, InPlace.construct,
        predict, show_diagnostics, plot_dynamic_forecast ].

(** ** Properties of [fit] and [predict] *)

Section Properties.

Variable E : Env.

(** *** The train/test split *)

(** With a positive horizon the two slices of line 35-36 cut the series
    at [len - horizon], or at 0 when the series is no longer than the
    horizon. *)
Lemma slice_split (ts : Series) (horizon : Z) :
  0 < horizon ->
  slice_to ts (- horizon) = firstn (Z.to_nat (len ts - horizon)) ts /\
  slice_from ts (- horizon) = skipn (Z.to_nat (len ts - horizon)) ts.
Proof.
  intro Hpos. unfold slice_to, slice_from, bound.
  destruct (Z.ltb_spec (- horizon) 0) as [_ | Hge]; [ | lia].
  replace (Z.to_nat (Z.max 0 (- horizon + len ts)))
    with (Z.to_nat (len ts - horizon)) by lia.
  split; reflexivity.
Qed.

(** Two series of one length that agree before the horizon have the same
    train slice. *)
Lemma slice_to_agree (s1 s2 : Series) (horizon : Z) :
  List.length s1 = List.length s2 ->
  firstn (Z.to_nat (len s1 - horizon)) s1 = firstn (Z.to_nat (len s1 - horizon)) s2 ->
  slice_to s2 (- horizon) = slice_to s1 (- horizon).
Proof.
  intros Hlen Hagree. unfold slice_to, bound, len in *. rewrite <- Hlen.
  destruct (Z.ltb_spec (- horizon) 0) as [Hneg | Hpos].
  - replace (Z.to_nat (Z.max 0 (- horizon + Z.of_nat (List.length s1))))
      with (Z.to_nat (Z.of_nat (List.length s1) - horizon)) by lia.
    symmetry. exact Hagree.
  - rewrite !firstn_all2 in Hagree by lia. now subst s2.
Qed.

(** Claim C1, as amended.  For every series and every forecast horizon
    greater than 0, [fit] cuts the series at [k = max (len - horizon) 0]:
    every order search runs on [series[0 : k]], every model is built on
    that train part, and the dynamic RMSE is computed against
    [series[k : len]].  There is no length check: when the series is no
    longer than the horizon, [k = 0], the train part is empty and the run
    goes on to the order search. *)
Theorem fit_splits_series (h : Heap E) :
  let self := this h in
  let k := Z.to_nat (len (ts_df h) - forecast_period self) in
  let ts_train := firstn k (ts_df h) in
  let ts_test := skipn k (ts_df h) in
  0 < forecast_period self ->
  hd_error (searches (events (fit E h)))
  = Some (EvSearch ts_train (metric self) (p_max self) (d_max self) (q_max self)
                   None None false (verbose self)) /\
  Forall (fun e => match e with
                   | EvSearch ts _ _ _ _ _ _ _ _ => ts = ts_train
                   | _ => True
                   end)
         (searches (events (fit E h))) /\
  Forall (fun a => endog a = ts_train) (constructions (events (fit E h))) /\
  Forall (fun c => fst (fst c) = ts_test /\ snd c = ts_train)
         (dynamic_rmse_calls (events (fit E h))).
Proof.
  destruct h as [[met seas sp pm dm qm fp v mo] df].
  wp_reduce. intro Hpos.
  destruct (slice_split df fp Hpos) as [<- <-].
  wp_start (fit E).
  fit_exec; wp_finish; trace_norm.
  all: repeat split; repeat constructor.
Qed.

(** *** The final fit *)

(** Claim C2.  Whenever the final fit [bestmodel.fit()] raises, whatever
    the exception, [fit] does not raise: it returns
    [(bestmodel, None, inf, inf)], with [bestmodel] the unfitted model. *)
Theorem fit_failure_returns_sentinel (h : Heap E) (bestmodel : Model E) (e : exn) :
  In bestmodel (fits (events (fit E h))) ->
  model_fit E bestmodel = Raise e ->
  outcome (fit E h) = Ok (Unfitted bestmodel, None, infinity, infinity).
Proof.
  destruct h as [[met seas sp pm dm qm fp v mo] df].
  wp_start (fit E).
  fit_select; wp_finish; trace_norm.
  all: intros Hin Hraise.
  all: repeat match goal with
              | H : _ \/ _ |- _ => destruct H
              | H : False |- _ => destruct H
              end.
  all: subst.
  all: congruence.
Qed.

(** *** The seasonal branch *)

(** Claim C3.  In a run with seasonality enabled and a seasonal period
    configured, the order search is called exactly twice: first in
    non-seasonal mode, giving [(p, d, q)], then in seasonal mode with
    [(p, d, q)] fixed and the configured period, giving [(P, D, Q)] and the
    flag.  One model is then built, on the train part, with the seasonal
    order [(P, D, Q, period)] if the flag is true and without a seasonal
    order otherwise, and it is the model that is fitted. *)
Theorem fit_seasonal_searches_twice (h : Heap E) (p d q : Z) (bic : float)
    (s : bool) (P D Q : Z) (bic' : float) (flag : bool) (period : Z) :
  let self := this h in
  let ts_train := slice_to (ts_df h) (- forecast_period self) in
  let search := find_best_pdq_or_PDQ E ts_train (metric self) (p_max self)
                  (d_max self) (q_max self) in
  let a := {| endog := ts_train;
              order := (p, d, q);
              seasonal_order := if flag then Some (P, D, Q, Some period) else None;
              enforce_stationarity := false;
              enforce_invertibility := false;
              trend := "ct";
              start_params := [0; 0; 0; 1];
              simple_differencing := false |} in
  seasonality self = true ->
  seasonal_period self = Some period ->
  search None None false (verbose self) = Ok (p, d, q, bic, s) ->
  search (Some (p, d, q)) (Some period) true (verbose self)
  = Ok (P, D, Q, bic', flag) ->
  searches (events (fit E h))
  = [EvSearch ts_train (metric self) (p_max self) (d_max self) (q_max self)
              None None false (verbose self);
     EvSearch ts_train (metric self) (p_max self) (d_max self) (q_max self)
              (Some (p, d, q)) (Some period) true (verbose self)] /\
  constructions (events (fit E h)) = [a] /\
  forall bestmodel,
    SARIMAX E a = Ok bestmodel -> fits (events (fit E h)) = [bestmodel].
Proof.
  destruct h as [[met seas sp pm dm qm fp v mo] df].
  wp_reduce. intros Hseas Hperiod Hsearch1 Hsearch2. subst seas sp.
  wp_start (fit E).
  fit_select; wp_finish; trace_norm.
  all: repeat match goal with
              | H : Ok _ = Ok _ |- _ => inversion H; subst; clear H
              | H : (_, _) = (_, _) |- _ => inversion H; subst; clear H
              end.
  all: repeat split; try reflexivity; congruence.
Qed.

(** Claim C10.  When the seasonal search does not confirm seasonality, the
    model built in the seasonal branch is the one the non-seasonal branch
    builds: same train part, same [(p, d, q)], trend ['ct'], start
    parameters [[0, 0, 0, 1]], no seasonal order. *)
Theorem fit_unconfirmed_builds_non_seasonal (h : Heap E) (p d q : Z) (bic : float)
    (s : bool) (P D Q : Z) (bic' : float) :
  let self := this h in
  let ts_train := slice_to (ts_df h) (- forecast_period self) in
  let search := find_best_pdq_or_PDQ E ts_train (metric self) (p_max self)
                  (d_max self) (q_max self) in
  seasonality self = true ->
  search None None false (verbose self) = Ok (p, d, q, bic, s) ->
  search (Some (p, d, q)) (seasonal_period self) true (verbose self)
  = Ok (P, D, Q, bic', false) ->
  constructions (events (fit E h))
  = constructions (events (fit E (with_seasonality false h))) /\
  constructions (events (fit E h))
  = [ {| endog := ts_train;
         order := (p, d, q);
         seasonal_order := None;
         enforce_stationarity := false;
         enforce_invertibility := false;
         trend := "ct";
         start_params := [0; 0; 0; 1];
         simple_differencing := false |} ].
Proof.
  destruct h as [[met seas sp pm dm qm fp v mo] df].
  wp_reduce. intros Hseas Hsearch1 Hsearch2. subst seas.
  wp_start (fit E).
  fit_select; wp_finish.
  all: wp_start (fit E); fit_select; wp_finish.
  all: trace_norm.
  all: split; reflexivity.
Qed.

(** Claim C6.  Every model [fit] builds, in each of its three branches, is
    built with [simple_differencing=False], on the train part, with the
    order [(p, d, q)] the non-seasonal search returned and either no
    seasonal order or the [(P, D, Q)] of a confirming seasonal search at
    the configured period. *)
Theorem fit_disables_simple_differencing (h : Heap E) :
  let self := this h in
  let ts_train := slice_to (ts_df h) (- forecast_period self) in
  let search := find_best_pdq_or_PDQ E ts_train (metric self) (p_max self)
                  (d_max self) (q_max self) in
  Forall
    (fun a =>
       simple_differencing a = false /\
       endog a = ts_train /\
       exists p d q bic s,
         search None None false (verbose self) = Ok (p, d, q, bic, s) /\
         order a = (p, d, q) /\
         (seasonal_order a = None \/
          exists P D Q bic',
            search (Some (p, d, q)) (seasonal_period self) true (verbose self)
            = Ok (P, D, Q, bic', true) /\
            seasonal_order a = Some (P, D, Q, seasonal_period self)))
    (constructions (events (fit E h))).
Proof.
  destruct h as [[met seas sp pm dm qm fp v mo] df].
  wp_start (fit E); wp_reduce.
  fit_select; wp_finish; trace_norm.
  all: repeat constructor.
  all: simpl; eauto 20.
Qed.

(** *** No leakage *)

(** Claim C7.  Two series of one length that agree on their first
    [L - H] entries lead to the same order searches, the same model
    construction, the same fitted model handle and the same [self.model]:
    the values of the test range reach none of them. *)
Theorem fit_ignores_test_values (h : Heap E) (s1 s2 : Series) :
  let r1 := fit E (with_ts_df s1 h) in
  let r2 := fit E (with_ts_df s2 h) in
  let horizon := forecast_period (this h) in
  List.length s1 = List.length s2 ->
  firstn (Z.to_nat (len s1 - horizon)) s1 = firstn (Z.to_nat (len s1 - horizon)) s2 ->
  searches (events r1) = searches (events r2) /\
  constructions (events r1) = constructions (events r2) /\
  fits (events r1) = fits (events r2) /\
  model (this (heap r1)) = model (this (heap r2)).
Proof.
  destruct h as [[met seas sp pm dm qm fp v mo] df].
  wp_reduce. intros Hlen Hagree.
  pose proof (slice_to_agree s1 s2 fp Hlen Hagree) as Htrain.
  wp_start (fit E).
  fit_select; wp_finish.
  all: wp_start (fit E); repeat first [rewrite Htrain | wp_tail | wp_step].
  all: wp_finish; trace_norm.
  all: repeat split; reflexivity.
Qed.

(** *** Static and dynamic RMSE *)

(** Claim C4, as amended.  In every run that returns a fitted model,
    [fit] computes the static in-sample predictions of that model over
    the train part and joins them with the train part.  Only when
    [verbose] is 1 does it pass the two joined columns to
    [print_static_rmse], both without their first [d] entries, [d] being
    the differencing order of the non-seasonal search, whether or not a
    seasonal order is used; otherwise it makes no such call.  The RMSE
    and the normalised RMSE it returns are those [print_dynamic_rmse]
    computes from the test part, the forecast of the configured horizon
    and the train part. *)
Theorem fit_static_and_dynamic_rmse (h : Heap E) (m : Results E)
    (frame : option (Frame E)) (rmse norm_rmse : float) :
  let self := this h in
  let ts_train := slice_to (ts_df h) (- forecast_period self) in
  let ts_test := slice_from (ts_df h) (- forecast_period self) in
  outcome (fit E h) = Ok (Fitted m, frame, rmse, norm_rmse) ->
  exists p d q bic s y_forecasted concatenated forecasted,
    find_best_pdq_or_PDQ E ts_train (metric self) (p_max self) (d_max self)
                         (q_max self) None None false (verbose self)
    = Ok (p, d, q, bic, s) /\
    results_predict E m = Ok y_forecasted /\
    static_predictions (events (fit E h)) = [m] /\
    pd_concat E ts_train y_forecasted = Ok concatenated /\
    static_rmse_calls (events (fit E h))
    = (if verbose self =? 1
       then [(slice_from (col_original concatenated) d,
              slice_from (col_predicted concatenated) d)]
       else []) /\
    forecast E m (forecast_period self) = Ok forecasted /\
    dynamic_rmse_calls (events (fit E h)) = [(ts_test, forecasted, ts_train)] /\
    print_dynamic_rmse E ts_test forecasted ts_train = Ok (rmse, norm_rmse).
Proof.
  destruct h as [[met seas sp pm dm qm fp v mo] df].
  wp_reduce.
  wp_start (fit E).
  fit_exec; wp_finish; trace_norm.
  all: intro Hout; try discriminate Hout.
  all: inversion Hout; subst; clear Hout.
  all: repeat match goal with H : (_ =? _) = _ |- _ => rewrite H end.
  all: do 8 eexists; repeat split; try eassumption; reflexivity.
Qed.

(** *** Verbosity *)

(** Claim C8, as amended.  Provided the order search answers the same
    whatever its [verbose] argument: whenever the run with [verbose = 1]
    returns, the run with any other verbosity returns the same model,
    forecast frame, RMSE and normalised RMSE, and leaves the same
    [self.model]. *)
Theorem fit_verbose_run_agrees_with_quiet_run (h : Heap E) (v : Z)
    (returned : FitResult E) :
  (forall ts metric p_max d_max q_max pdq period seasonal v1 v2,
      find_best_pdq_or_PDQ E ts metric p_max d_max q_max pdq period seasonal v1
      = find_best_pdq_or_PDQ E ts metric p_max d_max q_max pdq period seasonal v2) ->
  v <> 1 ->
  outcome (fit E (with_verbose 1 h)) = Ok returned ->
  outcome (fit E (with_verbose v h)) = Ok returned /\
  model (this (heap (fit E (with_verbose v h))))
  = model (this (heap (fit E (with_verbose 1 h)))).
Proof.
  destruct h as [[met seas sp pm dm qm fp v0 mo] df].
  wp_reduce. intros Hsearch Hv.
  assert (Hquiet : (v =? 1) = false) by (now apply Z.eqb_neq).
  assert (Hloud : (1 =? 1) = true) by reflexivity.
  pose proof (fun ts metric p_max d_max q_max pdq period seasonal =>
                Hsearch ts metric p_max d_max q_max pdq period seasonal v 1)
    as Hsearch'.
  wp_start (fit E).
  fit_exec; wp_finish.
  all: simpl; intro Hout; try discriminate Hout.
  all: wp_start (fit E);
    repeat first [rewrite Hsearch' | wp_block | wp_step]; wp_finish.
  all: simpl; split; [exact Hout | reflexivity].
Qed.

(** *** [predict] *)

(** What [predict] does on an instance whose [self.model] is [m]. *)
Lemma predict_trained (h : Heap E) (m : Results E) (horizon : option Z) :
  model (this h) = Some m ->
  predict E horizon h
  = (let n := match horizon with
              | Some n => n
              | None => forecast_period (this h)
              end in
     ([EvForecast m n], h, forecast E m n)).
Proof.
  intro Hm. unfold predict, bind, get_self, self_model, call.
  destruct horizon; rewrite Hm; reflexivity.
Qed.


End Properties.

(** ** The caller's frame *)

Section FrameProperties.

Variable E : Env.
Variable touch : event E -> Series -> Series.

(** [fit] has no write of its own: what it does to the frame is what its
    calls do. *)
Lemma fit_tracked : InPlace.tracked touch (InPlace.fit E touch).
Proof. unfold InPlace.fit. tracked_solve. Qed.

(** With collaborators that only read, the run of [fit] on the shared frame
    is the run of the first reading: same trace, same heap, same outcome. *)
Lemma in_place_fit_is_fit (h : Heap E) :
  (forall ev buf, touch ev buf = buf) ->
  InPlace.fit E touch h = fit E h.
Proof.
  intro read_only.
  assert (Hagree : InPlace.agree (ts_df h) (InPlace.fit E touch) (fit E)).
  { unfold InPlace.fit, fit.
    apply agree_bind; [apply agree_get_self | intro self].
    agree_solve read_only. }
  exact (proj1 (Hagree h eq_refl)).
Qed.


End FrameProperties.

(** ** The properties on concrete runs *)

Lemma fit_splits_series_witness :
  let E := Demo.env 3 in
  let h := Demo.start 3 false None 2 0 Demo.series6 in
  0 < forecast_period (this h) /\
  hd_error (searches (events (fit E h)))
  = Some (EvSearch Demo.train4 "bic" 2 1 2 None None false 0) /\
  Forall (fun e => match e with
                   | EvSearch ts _ _ _ _ _ _ _ _ => ts = Demo.train4
                   | _ => True
                   end)
         (searches (events (fit E h))) /\
  Forall (fun a => endog a = Demo.train4) (constructions (events (fit E h))) /\
  Forall (fun c => fst (fst c) = skipn 4 Demo.series6 /\ snd c = Demo.train4)
         (dynamic_rmse_calls (events (fit E h))).
Proof.
  split; [reflexivity | ].
  apply (fit_splits_series (Demo.env 3) (Demo.start 3 false None 2 0 Demo.series6)).
  reflexivity.
Defined.

(** Claim C1 as stated fails.  A series of two points with a horizon of
    three is not refused: the order search runs on the empty train part,
    the whole series is the test part and [fit] returns.  With a horizon
    of zero the train part is empty too, and the test part is the whole
    series. *)
Lemma fit_short_series_is_not_refused :
  let E := Demo.env 0 in
  let short := Demo.start 0 false None 3 0 Demo.series2 in
  let zero := Demo.start 0 false None 0 0 Demo.series2 in
  (searches (events (fit E short)) = [EvSearch [] "bic" 2 1 2 None None false 0] /\
   dynamic_rmse_calls (events (fit E short))
   = [(Demo.series2, Demo.naive_forecast [] 3, [])] /\
   exists returned, outcome (fit E short) = Ok returned) /\
  (searches (events (fit E zero)) = [EvSearch [] "bic" 2 1 2 None None false 0] /\
   dynamic_rmse_calls (events (fit E zero))
   = [(Demo.series2, Demo.naive_forecast [] 0, [])]).
Proof.
  repeat split; try (vm_compute; reflexivity).
  eexists. vm_compute. reflexivity.
Qed.

Lemma fit_failure_returns_sentinel_witness :
  let E := Demo.env 3 in
  let h := Demo.start 3 false None 4 0 Demo.series6 in
  let bestmodel := Demo.built (firstn 2 Demo.series6) None in
  In bestmodel (fits (events (fit E h))) /\
  model_fit E bestmodel = Raise (PyExc "LinAlgError") /\
  outcome (fit E h) = Ok (@Unfitted E bestmodel, None, infinity, infinity).
Proof.
  refine ((fun Hin Hraise =>
             conj Hin (conj Hraise
               (fit_failure_returns_sentinel (Demo.env 3)
                  (Demo.start 3 false None 4 0 Demo.series6)
                  (Demo.built (firstn 2 Demo.series6) None)
                  (PyExc "LinAlgError") Hin Hraise))) _ _).
  - left. reflexivity.
  - reflexivity.
Defined.

Lemma fit_seasonal_searches_twice_witness :
  let E := Demo.env 3 in
  let h := Demo.start 3 true (Some 12) 2 0 Demo.series6 in
  searches (events (fit E h))
  = [EvSearch Demo.train4 "bic" 2 1 2 None None false 0;
     EvSearch Demo.train4 "bic" 2 1 2 (Some (1, 1, 0)) (Some 12) true 0] /\
  constructions (events (fit E h)) = [Demo.built Demo.train4 (Some (0, 1, 1, Some 12))] /\
  fits (events (fit E h)) = [Demo.built Demo.train4 (Some (0, 1, 1, Some 12))].
Proof.
  destruct (fit_seasonal_searches_twice (Demo.env 3)
              (Demo.start 3 true (Some 12) 2 0 Demo.series6)
              1 1 0 10 false 0 1 1 8 true 12
              eq_refl eq_refl eq_refl eq_refl) as (Hsearches & Hbuilt & Hfit).
  exact (conj Hsearches
           (conj Hbuilt (Hfit (Demo.built Demo.train4 (Some (0, 1, 1, Some 12))) eq_refl))).
Defined.

Lemma fit_unconfirmed_builds_non_seasonal_witness :
  let E := Demo.env 3 in
  let h := Demo.start 3 true (Some 7) 2 0 Demo.series6 in
  constructions (events (fit E h))
  = constructions (events (fit E (with_seasonality false h))) /\
  constructions (events (fit E h)) = [Demo.built Demo.train4 None].
Proof.
  exact (fit_unconfirmed_builds_non_seasonal (Demo.env 3)
           (Demo.start 3 true (Some 7) 2 0 Demo.series6)
           1 1 0 10 false 0 1 1 8 eq_refl eq_refl eq_refl).
Defined.

Lemma fit_ignores_test_values_witness :
  let E := Demo.env 3 in
  let h := Demo.start 3 false None 2 0 [] in
  let r1 := fit E (with_ts_df Demo.series6 h) in
  let r2 := fit E (with_ts_df Demo.series6_alt h) in
  searches (events r1) = searches (events r2) /\
  constructions (events r1) = constructions (events r2) /\
  fits (events r1) = fits (events r2) /\
  model (this (heap r1)) = model (this (heap r2)).
Proof.
  exact (fit_ignores_test_values (Demo.env 3) (Demo.start 3 false None 2 0 [])
           Demo.series6 Demo.series6_alt eq_refl eq_refl).
Defined.

Lemma fit_static_and_dynamic_rmse_witness :
  let E := Demo.env 3 in
  let h := Demo.start 3 true (Some 12) 2 1 Demo.series6 in
  let m := Demo.built Demo.train4 (Some (0, 1, 1, Some 12)) in
  exists frame rmse norm_rmse,
    outcome (fit E h) = Ok (@Fitted E m, frame, rmse, norm_rmse) /\
    exists p d q bic s y_forecasted concatenated forecasted,
      find_best_pdq_or_PDQ E Demo.train4 "bic" 2 1 2 None None false 1
      = Ok (p, d, q, bic, s) /\
      results_predict E m = Ok y_forecasted /\
      static_predictions (events (fit E h)) = [m] /\
      pd_concat E Demo.train4 y_forecasted = Ok concatenated /\
      static_rmse_calls (events (fit E h))
      = [(slice_from (col_original concatenated) d,
          slice_from (col_predicted concatenated) d)] /\
      forecast E m 2 = Ok forecasted /\
      dynamic_rmse_calls (events (fit E h))
      = [(skipn 4 Demo.series6, forecasted, Demo.train4)] /\
      print_dynamic_rmse E (skipn 4 Demo.series6) forecasted Demo.train4
      = Ok (rmse, norm_rmse).
Proof.
  do 3 eexists.
  refine ((fun Hout =>
             conj Hout (fit_static_and_dynamic_rmse (Demo.env 3) _ _ _ _ _ Hout)) _).
  vm_compute. reflexivity.
Defined.

(** Claim C4 as stated fails.  With [verbose = 0] a run returns a fitted
    model without any call to [print_static_rmse].  With [verbose = 1] and
    the seasonal model of orders [(1, 1, 0)] and [(0, 1, 1, 12)], the call
    receives three of the four train points: one is dropped, not two. *)
Lemma fit_static_rmse_needs_verbose_and_skips_d :
  let E := Demo.env 3 in
  let quiet := Demo.start 3 true (Some 12) 2 0 Demo.series6 in
  let loud := Demo.start 3 true (Some 12) 2 1 Demo.series6 in
  let m := Demo.built Demo.train4 (Some (0, 1, 1, Some 12)) in
  ((exists frame rmse norm_rmse,
       outcome (fit E quiet) = Ok (@Fitted E m, frame, rmse, norm_rmse)) /\
   static_rmse_calls (events (fit E quiet)) = []) /\
  (constructions (events (fit E loud)) = [m] /\
   static_rmse_calls (events (fit E loud))
   = [([11; 12.5; 13]%float, [11; 12.5; 13]%float)]).
Proof.
  repeat split; try (vm_compute; reflexivity).
  do 3 eexists. vm_compute. reflexivity.
Qed.

Lemma fit_verbose_run_agrees_with_quiet_run_witness :
  let E := Demo.env 3 in
  let h := Demo.start 3 true (Some 12) 2 0 Demo.series6 in
  exists returned,
    outcome (fit E (with_verbose 1 h)) = Ok returned /\
    outcome (fit E (with_verbose 0 h)) = Ok returned /\
    model (this (heap (fit E (with_verbose 0 h))))
    = model (this (heap (fit E (with_verbose 1 h)))).
Proof.
  eexists.
  refine ((fun Hout =>
             conj Hout
               (fit_verbose_run_agrees_with_quiet_run (Demo.env 3)
                  (Demo.start 3 true (Some 12) 2 0 Demo.series6) 0 _
                  (fun _ _ _ _ _ _ _ _ _ _ => eq_refl)
                  (fun H : 0 = 1 =>
                     eq_ind 0 (fun z => if z =? 0 then True else False) I 1 H)
                  Hout)) _).
  vm_compute. reflexivity.
Defined.

(** Claim C8 as stated fails.  On a series of two points with a horizon
    of one, the single train point is dropped from the frame to plot; the
    run with [verbose = 1] raises from the plot of the empty frame, while
    the run with [verbose = 0] returns its results. *)
Lemma fit_verbose_run_can_fail_alone :
  let E := Demo.env 1 in
  let h := Demo.start 1 false None 1 0 Demo.series2 in
  (exists returned, outcome (fit E (with_verbose 0 h)) = Ok returned) /\
  outcome (fit E (with_verbose 1 h)) = Raise (PyExc "TypeError").
Proof.
  split; [eexists | ]; vm_compute; reflexivity.
Qed.




(** The slices are windows, not copies.  When the seasonal search pass
    overwrites the rows it is handed, the train rows of the caller's frame
    are overwritten after [fit], the test rows are not, and the model is
    built on the overwritten rows. *)
Lemma fit_hands_out_windows_on_the_frame :
  let E := Demo.env 3 in
  let h := Demo.start 3 true (Some 12) 2 0 Demo.series6 in
  let run := InPlace.fit E (Writers.seasonal_pass E) h in
  ts_df (heap run)
  = [(1, 0%float); (2, 0%float); (3, 0%float); (4, 0%float);
     (5, 14.5%float); (6, 15%float)] /\
  map endog (constructions (events run))
  = [[(1, 0%float); (2, 0%float); (3, 0%float); (4, 0%float)]].
Proof. split; vm_compute; reflexivity. Qed.

(** ** Further properties of [fit] and [predict] *)

Section More.

Variable E : Env.

(** [l[:k]] followed by [l[k:]] is [l], for every [k]. *)
Lemma slice_cover {A : Type} (l : list A) (k : Z) : slice_to l k ++ slice_from l k = l.
Proof. unfold slice_to, slice_from. apply firstn_skipn. Qed.

(** Property X1.  For every horizon, zero and negative ones included, the
    train part followed by the test part is the series: the split of lines
    35-36 loses no row and repeats none.  Every order search runs on that
    train part and the dynamic RMSE is computed on that test part. *)
Theorem fit_split_covers_series (h : Heap E) :
  let ts_train := slice_to (ts_df h) (- forecast_period (this h)) in
  let ts_test := slice_from (ts_df h) (- forecast_period (this h)) in
  ts_train ++ ts_test = ts_df h /\
  Forall (fun e => match e with
                   | EvSearch ts _ _ _ _ _ _ _ _ => ts = ts_train
                   | _ => True
                   end)
         (searches (events (fit E h))) /\
  Forall (fun c => fst (fst c) = ts_test /\ snd c = ts_train)
         (dynamic_rmse_calls (events (fit E h))).
Proof.
  destruct h as [[met seas sp pm dm qm fp v mo] df].
  wp_reduce. split; [apply slice_cover | ].
  wp_start (fit E).
  fit_exec; wp_finish; trace_norm.
  all: repeat split; repeat constructor.
Qed.

(** Property X2.  With a positive horizon the test part has
    [min horizon len] rows and the train part the rest. *)
Theorem fit_split_sizes (h : Heap E) :
  let n := len (ts_df h) in
  let horizon := forecast_period (this h) in
  0 < horizon ->
  len (slice_from (ts_df h) (- horizon)) = Z.min horizon n /\
  len (slice_to (ts_df h) (- horizon)) = n - Z.min horizon n.
Proof.
  cbv zeta. intro Hpos. unfold slice_to, slice_from, bound, len.
  destruct (Z.ltb_spec (- forecast_period (this h)) 0) as [_ | Hge]; [ | lia].
  rewrite length_skipn, length_firstn. lia.
Qed.

(** Property X14.  On every path [fit] leaves the configuration of the
    instance alone, and [self.model] is either what it was or the result
    of the one final fit. *)
Theorem fit_keeps_configuration (h : Heap E) :
  let self := this h in
  let self' := this (heap (fit E h)) in
  metric self' = metric self /\
  seasonality self' = seasonality self /\
  seasonal_period self' = seasonal_period self /\
  p_max self' = p_max self /\ d_max self' = d_max self /\ q_max self' = q_max self /\
  forecast_period self' = forecast_period self /\
  verbose self' = verbose self /\
  (model self' = model self \/
   exists bestmodel m,
     fits (events (fit E h)) = [bestmodel] /\
     model_fit E bestmodel = Ok m /\ model self' = Some m).
Proof.
  destruct h as [[met seas sp pm dm qm fp v mo] df].
  wp_reduce.
  wp_start (fit E).
  fit_select; wp_finish; trace_norm.
  all: repeat (split; [reflexivity | ]).
  all: first [left; reflexivity | right; do 2 eexists; repeat split; eassumption].
Qed.

(** Property X15.  A run never makes more than two order searches, one
    model construction and one final fit; without seasonality it makes
    exactly one order search, even when that search raises. *)
Theorem fit_calls_are_bounded (h : Heap E) :
  (List.length (searches (events (fit E h))) <= 2)%nat /\
  (seasonality (this h) = false ->
   List.length (searches (events (fit E h))) = 1%nat) /\
  (List.length (constructions (events (fit E h))) <= 1)%nat /\
  (List.length (fits (events (fit E h))) <= 1)%nat.
Proof.
  destruct h as [[met seas sp pm dm qm fp v mo] df].
  destruct seas; wp_reduce.
  all: wp_start (fit E).
  all: fit_select; wp_finish; trace_norm.
  all: repeat split; try lia; try discriminate; reflexivity.
Qed.

(** Property X3.  In a run without seasonality the order search is called
    once, with no fixed order and no seasonal period, and the one model
    built has the returned [(p, d, q)] and no seasonal order; it is the
    model that is fitted. *)
Theorem fit_non_seasonal_searches_once (h : Heap E) (p d q : Z) (bic : float) (s : bool) :
  let self := this h in
  let ts_train := slice_to (ts_df h) (- forecast_period self) in
  let a := {| endog := ts_train;
              order := (p, d, q);
              seasonal_order := None;
              enforce_stationarity := false;
              enforce_invertibility := false;
              trend := "ct";
              start_params := [0; 0; 0; 1];
              simple_differencing := false |} in
  seasonality self = false ->
  find_best_pdq_or_PDQ E ts_train (metric self) (p_max self) (d_max self) (q_max self)
                       None None false (verbose self)
  = Ok (p, d, q, bic, s) ->
  searches (events (fit E h))
  = [EvSearch ts_train (metric self) (p_max self) (d_max self) (q_max self)
              None None false (verbose self)] /\
  constructions (events (fit E h)) = [a] /\
  forall bestmodel,
    SARIMAX E a = Ok bestmodel -> fits (events (fit E h)) = [bestmodel].
Proof.
  destruct h as [[met seas sp pm dm qm fp v mo] df].
  wp_reduce. intros Hseas Hsearch. subst seas.
  wp_start (fit E).
  fit_select; wp_finish; trace_norm.
  all: repeat match goal with
              | H : Ok _ = Ok _ |- _ => inversion H; subst; clear H
              | H : (_, _) = (_, _) |- _ => inversion H; subst; clear H
              end.
  all: repeat split; try reflexivity; congruence.
Qed.

(** Property X4.  An exception of the first order search is not caught:
    [fit] raises it, after that one call and no other, and the instance
    and the frame are as before. *)
Theorem fit_search_error_propagates (h : Heap E) (e : exn) :
  let self := this h in
  let ts_train := slice_to (ts_df h) (- forecast_period self) in
  find_best_pdq_or_PDQ E ts_train (metric self) (p_max self) (d_max self) (q_max self)
                       None None false (verbose self)
  = Raise e ->
  outcome (fit E h) = Raise e /\
  heap (fit E h) = h /\
  numerical (events (fit E h))
  = [EvSearch ts_train (metric self) (p_max self) (d_max self) (q_max self)
              None None false (verbose self)].
Proof.
  destruct h as [[met seas sp pm dm qm fp v mo] df].
  wp_reduce. intros Hsearch.
  wp_start (fit E).
  fit_exec; wp_finish; trace_norm.
  all: repeat split; reflexivity.
Qed.

(** Property X5.  With seasonality enabled, no seasonal period configured
    and a seasonal search that confirms, the ['%d'] of line 78 raises
    [TypeError]: no model is built and the instance is as before. *)
Theorem fit_seasonal_without_period_raises (h : Heap E) (p d q : Z) (bic : float)
    (s : bool) (P D Q : Z) (bic' : float) :
  let self := this h in
  let ts_train := slice_to (ts_df h) (- forecast_period self) in
  let search := find_best_pdq_or_PDQ E ts_train (metric self) (p_max self)
                  (d_max self) (q_max self) in
  seasonality self = true ->
  seasonal_period self = None ->
  search None None false (verbose self) = Ok (p, d, q, bic, s) ->
  search (Some (p, d, q)) None true (verbose self) = Ok (P, D, Q, bic', true) ->
  outcome (fit E h) = Raise TypeError /\
  heap (fit E h) = h /\
  constructions (events (fit E h)) = [].
Proof.
  destruct h as [[met seas sp pm dm qm fp v mo] df].
  wp_reduce. intros Hseas Hperiod Hsearch1 Hsearch2. subst seas sp.
  wp_start (fit E).
  fit_exec; wp_finish; trace_norm.
  all: repeat split; reflexivity.
Qed.

(** Property X6.  What [fit] returns has one of two shapes.  Either the
    unfitted model that was handed to the final fit, with [None] and two
    infinities, and then no forecast and no dynamic RMSE was computed; or
    the result [m] of the final fit, which is also [self.model], with the
    summary frame of its forecast for the configured horizon. *)
Theorem fit_returns_sentinel_or_results (h : Heap E) (returned : FitResult E) :
  outcome (fit E h) = Ok returned ->
  (exists bestmodel,
      returned = (Unfitted bestmodel, None, infinity, infinity) /\
      fits (events (fit E h)) = [bestmodel] /\
      forecast_calls (events (fit E h)) = [] /\
      dynamic_rmse_calls (events (fit E h)) = []) \/
  (exists bestmodel m res2 frame rmse norm_rmse,
      returned = (Fitted m, Some frame, rmse, norm_rmse) /\
      fits (events (fit E h)) = [bestmodel] /\
      model_fit E bestmodel = Ok m /\
      model (this (heap (fit E h))) = Some m /\
      get_forecast E m (forecast_period (this h)) = Ok res2 /\
      summary_frame E res2 = Ok frame).
Proof.
  destruct h as [[met seas sp pm dm qm fp v mo] df].
  wp_reduce.
  wp_start (fit E).
  fit_exec; wp_finish; trace_norm.
  all: intro Hout; try discriminate Hout.
  all: inversion Hout; subst; clear Hout.
  all: first
         [ left; eexists; repeat split; reflexivity
         | right; do 6 eexists; repeat split; try eassumption; reflexivity ].
Qed.

(** Property X7.  After [fit] has returned a fitted model, [predict()]
    returns the forecast that [fit] scored against the test part, and
    [predict(n)] is the forecast of that model for [n] steps. *)
Theorem predict_after_fit (h : Heap E) (m : Results E) (frame : option (Frame E))
    (rmse norm_rmse : float) :
  let after := heap (fit E h) in
  let ts_train := slice_to (ts_df h) (- forecast_period (this h)) in
  let ts_test := slice_from (ts_df h) (- forecast_period (this h)) in
  outcome (fit E h) = Ok (Fitted m, frame, rmse, norm_rmse) ->
  (forall n, predict E (Some n) after = ([EvForecast m n], after, forecast E m n)) /\
  exists forecasted,
    predict E None after
    = ([EvForecast m (forecast_period (this h))], after, Ok forecasted) /\
    dynamic_rmse_calls (events (fit E h)) = [(ts_test, forecasted, ts_train)].
Proof.
  destruct h as [[met seas sp pm dm qm fp v mo] df].
  wp_reduce.
  wp_start (fit E).
  fit_exec; wp_finish; trace_norm.
  all: intro Hout; try discriminate Hout.
  all: inversion Hout; subst; clear Hout.
  all: split; [intro n; reflexivity | ].
  all: eexists; split; [ | reflexivity].
  all: unfold predict, bind, get_self, self_model, call; simpl.
  all: match goal with H : forecast _ _ _ = Ok _ |- _ => rewrite H end; reflexivity.
Qed.

(** Property X8.  The failure sentinel is also what [fit] returns when the
    final fit succeeds and the lookup of the metric on its result raises
    (lines 109-113 share one [try]); [self.model] then holds the fitted
    result. *)
Theorem fit_metric_failure_keeps_fitted_model (h : Heap E) (bestmodel : Model E)
    (m : Results E) (e : exn) :
  In bestmodel (fits (events (fit E h))) ->
  model_fit E bestmodel = Ok m ->
  results_attr E m (metric (this h)) = Raise e ->
  outcome (fit E h) = Ok (Unfitted bestmodel, None, infinity, infinity) /\
  model (this (heap (fit E h))) = Some m.
Proof.
  destruct h as [[met seas sp pm dm qm fp v mo] df].
  wp_reduce.
  wp_start (fit E).
  fit_select; wp_finish; trace_norm.
  all: intros Hin Hfit Hattr.
  all: repeat match goal with
              | H : _ \/ _ |- _ => destruct H
              | H : False |- _ => destruct H
              end.
  all: subst.
  all: repeat match goal with
              | H1 : ?x = Ok _, H2 : ?x = Ok _ |- _ =>
                  rewrite H1 in H2; inversion H2; subst; clear H2
              end.
  all: try congruence.
  all: split; reflexivity.
Qed.

(** Property X9.  When the final fit raises, the instance and the frame
    are exactly what they were before the call: [self.model] is not
    touched. *)
Theorem fit_failure_leaves_instance (h : Heap E) (bestmodel : Model E) (e : exn) :
  In bestmodel (fits (events (fit E h))) ->
  model_fit E bestmodel = Raise e ->
  heap (fit E h) = h.
Proof.
  destruct h as [[met seas sp pm dm qm fp v mo] df].
  wp_start (fit E).
  fit_select; wp_finish; trace_norm.
  all: intros Hin Hraise.
  all: repeat match goal with
              | H : _ \/ _ |- _ => destruct H
              | H : False |- _ => destruct H
              end.
  all: subst.
  all: try congruence.
  all: reflexivity.
Qed.

(** Property X10.  On an instance fresh from [__init__], [predict], with
    or without a horizon, raises [AttributeError] without calling the
    estimator. *)
Theorem predict_before_fit_raises (metric : string) (seasonality : bool)
    (seasonal_period : option Z) (p_max d_max q_max forecast_period verbose : Z)
    (df : Series) (horizon : option Z) :
  let h := mkHeap (init E metric seasonality seasonal_period p_max d_max q_max
                        forecast_period verbose) df in
  predict E horizon h = ([], h, Raise AttributeError).
Proof. destruct horizon; reflexivity. Qed.

(** Property X11.  With a verbosity other than 1 a run makes no matplotlib
    call, no [print_static_rmse] call and no [summary] call. *)
Theorem fit_quiet_run_never_plots (h : Heap E) :
  verbose (this h) <> 1 ->
  plotting (events (fit E h)) = [] /\
  static_rmse_calls (events (fit E h)) = [] /\
  Forall (fun e => match e with EvSummary _ => False | _ => True end)
         (events (fit E h)).
Proof.
  destruct h as [[met seas sp pm dm qm fp v mo] df].
  wp_reduce. intro Hv.
  assert (Hquiet : (v =? 1) = false) by (now apply Z.eqb_neq).
  wp_start (fit E).
  fit_exec; wp_finish.
  all: unfold plotting, static_rmse_calls; simpl.
  all: repeat split; repeat constructor.
Qed.

(** An index below [-len] is out of range. *)
Lemma index_out_of_range {A : Type} (l : list A) (i : Z) :
  i < - len l -> index l i = Raise IndexError.
Proof.
  intro Hlow. unfold index.
  assert (Hlen : 0 <= len l) by (unfold len; lia).
  destruct (Z.ltb_spec i 0) as [_ | Hge]; [ | lia].
  destruct (Z.ltb_spec (i + len l) 0) as [_ | Hge]; [reflexivity | lia].
Qed.

(** Property X12.  In the plot of lines 144-158, when the series is no
    longer than the horizon the start date [ts_df.index[-horizon-1]] does
    not exist: after the frame plot the block raises [IndexError], before
    any prediction is asked for. *)
Theorem plot_needs_a_row_before_the_horizon (self : BuildSarimax E)
    (df ts_train : Series) (concatenated : Concatenated) (best_d : Z)
    (ax : Axes E) (h : Heap E) :
  let rows := slice_from concatenated best_d in
  frame_plot E rows = Ok ax ->
  len df <= forecast_period self ->
  plot_dynamic_forecast E self df ts_train concatenated best_d h
  = ([EvFramePlot rows], h, Raise IndexError).
Proof.
  cbv zeta. intros Hplot Hshort.
  unfold plot_dynamic_forecast, bind, call, lift. rewrite Hplot.
  rewrite index_out_of_range; [reflexivity | ].
  unfold index_of, len in *. rewrite length_map. lia.
Qed.

(** Property X13.  The diagnostic plot of lines 116-119 never raises,
    whatever [plot_diagnostics] does, and leaves the instance alone. *)
Theorem show_diagnostics_never_raises (h : Heap E) :
  outcome (show_diagnostics E h) = Ok tt /\ heap (show_diagnostics E h) = h.
Proof.
  destruct h as [[met seas sp pm dm qm fp v mo] df].
  wp_start (show_diagnostics E). unfold show_diagnostics.
  repeat wp_step; wp_finish.
  all: repeat match goal with u : unit |- _ => destruct u end.
  all: split; reflexivity.
Qed.

End More.

(** ** The further properties on concrete runs *)

Lemma fit_split_sizes_witness :
  let h := Demo.start 3 false None 4 0 Demo.series6 in
  0 < forecast_period (this h) /\
  len (slice_from (ts_df h) (- 4)) = 4 /\
  len (slice_to (ts_df h) (- 4)) = 2.
Proof.
  split; [reflexivity | ].
  exact (fit_split_sizes (Demo.env 3) (Demo.start 3 false None 4 0 Demo.series6)
           eq_refl).
Defined.

Lemma fit_non_seasonal_searches_once_witness :
  let E := Demo.env 3 in
  let h := Demo.start 3 false None 2 0 Demo.series6 in
  searches (events (fit E h))
  = [EvSearch Demo.train4 "bic" 2 1 2 None None false 0] /\
  constructions (events (fit E h)) = [Demo.built Demo.train4 None] /\
  fits (events (fit E h)) = [Demo.built Demo.train4 None].
Proof.
  destruct (fit_non_seasonal_searches_once (Demo.env 3)
              (Demo.start 3 false None 2 0 Demo.series6) 1 1 0 10 false
              eq_refl eq_refl) as (Hsearches & Hbuilt & Hfit).
  exact (conj Hsearches (conj Hbuilt (Hfit (Demo.built Demo.train4 None) eq_refl))).
Defined.

Lemma fit_search_error_propagates_witness :
  let h := Lab.start Lab.strict "bic" false None 3 0 Demo.series2 in
  outcome (fit Lab.strict h) = Raise (PyExc "ValueError") /\
  heap (fit Lab.strict h) = h /\
  numerical (events (fit Lab.strict h))
  = [EvSearch [] "bic" 2 1 2 None None false 0].
Proof.
  exact (fit_search_error_propagates Lab.strict
           (Lab.start Lab.strict "bic" false None 3 0 Demo.series2)
           (PyExc "ValueError") eq_refl).
Defined.

Lemma fit_seasonal_without_period_raises_witness :
  let h := Lab.start Lab.eager "bic" true None 2 0 Demo.series6 in
  outcome (fit Lab.eager h) = Raise TypeError /\
  heap (fit Lab.eager h) = h /\
  constructions (events (fit Lab.eager h)) = [].
Proof.
  exact (fit_seasonal_without_period_raises Lab.eager
           (Lab.start Lab.eager "bic" true None 2 0 Demo.series6)
           1 1 0 10 false 0 1 1 8 eq_refl eq_refl eq_refl eq_refl).
Defined.

Lemma fit_returns_sentinel_or_results_witness :
  let E := Demo.env 3 in
  let h := Demo.start 3 false None 4 0 Demo.series6 in
  let bestmodel := Demo.built (firstn 2 Demo.series6) None in
  outcome (fit E h) = Ok (@Unfitted E bestmodel, None, infinity, infinity) /\
  ((exists bestmodel',
       (@Unfitted E bestmodel, @None (Frame E), infinity, infinity)
       = (Unfitted bestmodel', None, infinity, infinity) /\
       fits (events (fit E h)) = [bestmodel'] /\
       forecast_calls (events (fit E h)) = [] /\
       dynamic_rmse_calls (events (fit E h)) = []) \/
   (exists bestmodel' m res2 frame rmse norm_rmse,
       (@Unfitted E bestmodel, @None (Frame E), infinity, infinity)
       = (Fitted m, Some frame, rmse, norm_rmse) /\
       fits (events (fit E h)) = [bestmodel'] /\
       model_fit E bestmodel' = Ok m /\
       model (this (heap (fit E h))) = Some m /\
       get_forecast E m (forecast_period (this h)) = Ok res2 /\
       summary_frame E res2 = Ok frame)).
Proof.
  refine ((fun Hout =>
             conj Hout
               (fit_returns_sentinel_or_results (Demo.env 3)
                  (Demo.start 3 false None 4 0 Demo.series6) _ Hout)) _).
  vm_compute. reflexivity.
Defined.

Lemma predict_after_fit_witness :
  let E := Demo.env 3 in
  let h := Demo.start 3 false None 2 0 Demo.series6 in
  let m := Demo.built Demo.train4 None in
  let after := heap (fit E h) in
  exists frame rmse norm_rmse,
    outcome (fit E h) = Ok (@Fitted E m, frame, rmse, norm_rmse) /\
    (forall n, predict E (Some n) after = ([@EvForecast E m n], after, forecast E m n)) /\
    exists forecasted,
      predict E None after = ([@EvForecast E m 2], after, Ok forecasted) /\
      dynamic_rmse_calls (events (fit E h))
      = [(skipn 4 Demo.series6, forecasted, Demo.train4)].
Proof.
  do 3 eexists.
  refine ((fun Hout =>
             conj Hout
               (predict_after_fit (Demo.env 3)
                  (Demo.start 3 false None 2 0 Demo.series6) _ _ _ _ Hout)) _).
  vm_compute. reflexivity.
Defined.

Lemma fit_metric_failure_keeps_fitted_model_witness :
  let E := Demo.env 3 in
  let h := Lab.start E "hqic" false None 2 0 Demo.series6 in
  let m := Demo.built Demo.train4 None in
  In m (fits (events (fit E h))) /\
  results_attr E m "hqic" = Raise AttributeError /\
  outcome (fit E h) = Ok (@Unfitted E m, None, infinity, infinity) /\
  model (this (heap (fit E h))) = Some m.
Proof.
  refine ((fun Hin Hattr =>
             conj Hin (conj Hattr
               (fit_metric_failure_keeps_fitted_model (Demo.env 3)
                  (Lab.start (Demo.env 3) "hqic" false None 2 0 Demo.series6)
                  (Demo.built Demo.train4 None) (Demo.built Demo.train4 None)
                  AttributeError Hin eq_refl Hattr))) _ _).
  - left. reflexivity.
  - reflexivity.
Defined.

Lemma fit_failure_leaves_instance_witness :
  let E := Demo.env 3 in
  let h := Demo.start 3 false None 4 0 Demo.series6 in
  heap (fit E h) = h.
Proof.
  exact (fit_failure_leaves_instance (Demo.env 3)
           (Demo.start 3 false None 4 0 Demo.series6)
           (Demo.built (firstn 2 Demo.series6) None) (PyExc "LinAlgError")
           (or_introl eq_refl) eq_refl).
Defined.

Lemma fit_quiet_run_never_plots_witness :
  let E := Demo.env 3 in
  let h := Demo.start 3 true (Some 12) 2 0 Demo.series6 in
  plotting (events (fit E h)) = [] /\
  static_rmse_calls (events (fit E h)) = [] /\
  Forall (fun e => match e with EvSummary _ => False | _ => True end)
         (events (fit E h)).
Proof.
  exact (fit_quiet_run_never_plots (Demo.env 3)
           (Demo.start 3 true (Some 12) 2 0 Demo.series6)
           (fun H : 0 = 1 =>
              eq_ind 0 (fun z => if z =? 0 then True else False) I 1 H)).
Defined.

Lemma plot_needs_a_row_before_the_horizon_witness :
  let E := Demo.env 3 in
  let self := this (Demo.start 3 false None 2 1 Demo.series2) in
  let rows := [(1, (10%float, 10%float))] in
  plot_dynamic_forecast E self Demo.series2 [] rows 0 Demo.trained
  = ([@EvFramePlot E rows], Demo.trained, Raise IndexError).
Proof.
  apply (plot_needs_a_row_before_the_horizon (Demo.env 3)
           (this (Demo.start 3 false None 2 1 Demo.series2))
           Demo.series2 [] [(1, (10%float, 10%float))] 0 tt Demo.trained).
  - reflexivity.
  - intro H. discriminate H.
Defined.
